(** * Regime classification, strategy dispatch and consensus voting

    A shallow embedding of the decision core of the trading-signal
    generator: [identify_market_condition], the strategy registry
    [select_strategy_based_on_condition] and the evaluators of
    [new.py] / [main.py], together with the flat two-out-of-three variant
    of [two_out_of_three_strat_trending.py].

    Modelling conventions.
    - A pandas [float64] cell is either [NaN] or an exact rational [Val q];
      rounding and overflow are not modelled.  Every ordered comparison with
      [NaN] is [false], as in IEEE 754.
    - A pandas [Series] is the list of its cells in index order; [.iloc[-1]]
      raises [IndexError] on an empty series.
    - TA-Lib is an external collaborator; its functions are the fields of a
      record [Talib] that every modelled function receives.
    - The exchange client is an external collaborator too: its answers are
      the fields of a record [Client], and what the program does to it is a
      trace of events.  [while True] is the sequence of its passes. *)

From Stdlib Require Import ZArith QArith String List Bool Arith Lia Lqa.
Import ListNotations.

Local Open Scope Q_scope.

(** ** Python exceptions and fallible evaluation *)

Inductive PyError : Type :=
| IndexError.

Inductive result (A : Type) : Type :=
| Ok (a : A)
| Err (e : PyError).

Arguments Ok {A} a.
Arguments Err {A} e.

Definition bind {A B : Type} (c : result A) (k : A -> result B) : result B :=
  match c with
  | Ok a => k a
  | Err e => Err e
  end.

Notation "x <- c ;; k" := (bind c (fun x => k))
  (at level 61, c at next level, right associativity).

(** Python's short-circuit [or] and [and] over fallible operands. *)
Definition or_else (a b : result bool) : result bool :=
  x <- a ;; if x then Ok true else b.

Definition and_then (a b : result bool) : result bool :=
  x <- a ;; if x then b else Ok false.

(** ** float64 cells *)

Inductive float64 : Type :=
| NaN
| Val (q : Q).

Definition Qgtb (x y : Q) : bool :=
  match x ?= y with
  | Gt => true
  | _ => false
  end.

Definition Qltb (x y : Q) : bool :=
  match x ?= y with
  | Lt => true
  | _ => false
  end.

(** [a > b] and [a < b] on cells. *)
Definition fgt (a b : float64) : bool :=
  match a, b with
  | Val x, Val y => Qgtb x y
  | _, _ => false
  end.

Definition flt (a b : float64) : bool :=
  match a, b with
  | Val x, Val y => Qltb x y
  | _, _ => false
  end.

Definition fadd (a b : float64) : float64 :=
  match a, b with
  | Val x, Val y => Val (x + y)
  | _, _ => NaN
  end.

Definition fsub (a b : float64) : float64 :=
  match a, b with
  | Val x, Val y => Val (x - y)
  | _, _ => NaN
  end.

Definition fmul (a b : float64) : float64 :=
  match a, b with
  | Val x, Val y => Val (x * y)
  | _, _ => NaN
  end.

(** A float64 quotient by zero is an infinity or NaN.  The only quotient of
    the program, the Bollinger width, is read through [rolling(...).mean()]
    alone, and pandas replaces infinities by NaN before it averages a window;
    the quotient by zero is therefore the undefined cell. *)
Definition fdiv (a b : float64) : float64 :=
  match a, b with
  | Val x, Val y => if Qeq_bool y 0 then NaN else Val (x / y)
  | _, _ => NaN
  end.

(** ** Series *)

Definition Series : Type := list float64.

(** [s.iloc[-1]] *)
Fixpoint iloc_last {A : Type} (s : list A) : result A :=
  match s with
  | [] => Err IndexError
  | [x] => Ok x
  | _ :: t => iloc_last t
  end.

(** Element-wise arithmetic of two series, aligned on the index: a label
    present on one side only yields NaN. *)
Fixpoint series_binop (f : float64 -> float64 -> float64) (a b : Series) : Series :=
  match a with
  | [] => map (fun _ => NaN) b
  | x :: a' =>
      match b with
      | [] => map (fun _ => NaN) a
      | y :: b' => f x y :: series_binop f a' b'
      end
  end.

Definition series_sub : Series -> Series -> Series := series_binop fsub.
Definition series_div : Series -> Series -> Series := series_binop fdiv.

(** *** [Series.rolling(window, min_periods).mean()] *)

(** The cells of the trailing window that ends at position [i]. *)
Definition window_at (window : nat) (s : Series) (i : nat) : Series :=
  firstn (Nat.min window (S i)) (skipn (S i - window) s).

(** The observations of a window: its cells that are not NaN. *)
Fixpoint observations (s : Series) : list Q :=
  match s with
  | [] => []
  | NaN :: t => observations t
  | Val q :: t => q :: observations t
  end.

Definition Qsum (l : list Q) : Q := fold_right Qplus 0 l.

Definition window_mean (min_periods : nat) (win : Series) : float64 :=
  let obs := observations win in
  let n := length obs in
  if (min_periods <=? n)%nat && (0 <? n)%nat
  then Val (Qsum obs / inject_Z (Z.of_nat n))
  else NaN.

(** [min_periods=None] is the window size. *)
Definition rolling_mean (window : nat) (min_periods : option nat) (s : Series) : Series :=
  let mp := match min_periods with Some m => m | None => window end in
  map (fun i => window_mean mp (window_at window s i)) (seq 0 (length s)).

(** ** The data window and the indicator provider *)

Record DataFrame : Type := {
  Open : Series;
  High : Series;
  Low : Series;
  Close : Series;
  Volume : Series
}.

(** The TA-Lib functions the program calls, with the arguments it passes. *)
Record Talib : Type := {
  (* ADX(high, low, close, timeperiod) *)
  ADX : Series -> Series -> Series -> nat -> Series;
  (* BBANDS(close, timeperiod, nbdevup, nbdevdn, matype) *)
  BBANDS : Series -> nat -> Q -> Q -> nat -> Series * Series * Series;
  (* RSI(close, timeperiod) *)
  RSI : Series -> nat -> Series;
  (* STOCH(high, low, close, fastk_period, slowk_period, slowk_matype,
           slowd_period, slowd_matype) *)
  STOCH : Series -> Series -> Series -> nat -> nat -> nat -> nat -> nat -> Series * Series;
  (* MACD(close, fastperiod, slowperiod, signalperiod) *)
  MACD : Series -> nat -> nat -> nat -> Series * Series * Series;
  (* ATR(high, low, close, timeperiod) *)
  ATR : Series -> Series -> Series -> nat -> Series;
  (* SAR(high, low, acceleration, maximum) *)
  SAR : Series -> Series -> Q -> Q -> Series
}.

(** ** Regime classifier *)

Definition ADX_THRESHOLD : Q := 25.
Definition BBANDS_WIDTH_THRESHOLD : Q := 2.

(** The locals [smoothed_adx] and [smoothed_bbands_width]. *)
Definition smoothed_adx (talib : Talib) (data : DataFrame)
    (adx_window smoothing_window : nat) : Series :=
  let adx := ADX talib (High data) (Low data) (Close data) adx_window in
  rolling_mean smoothing_window None adx.

Definition smoothed_bbands_width (talib : Talib) (data : DataFrame)
    (bbands_window smoothing_window : nat) : Series :=
  let '(upperband, middleband, lowerband) :=
    BBANDS talib (Close data) bbands_window 2 2 0%nat in
  let bbands_width := series_div (series_sub upperband lowerband) middleband in
  rolling_mean smoothing_window None bbands_width.

Definition identify_market_condition (talib : Talib) (data : DataFrame)
    (adx_window bbands_window smoothing_window : nat) : result string :=
  latest_adx <- iloc_last (smoothed_adx talib data adx_window smoothing_window) ;;
  latest_bbands_width <-
    iloc_last (smoothed_bbands_width talib data bbands_window smoothing_window) ;;
  if fgt latest_adx (Val ADX_THRESHOLD)
     && fgt latest_bbands_width (Val BBANDS_WIDTH_THRESHOLD)
  then Ok "trending and volatile"%string
  else if fgt latest_adx (Val ADX_THRESHOLD)
  then Ok "trending"%string
  else if fgt latest_bbands_width (Val BBANDS_WIDTH_THRESHOLD)
  then Ok "volatile"%string
  else Ok "sideways"%string.

(** ** Strategy evaluators *)

Local Open Scope string_scope.

(** [x.iloc[-1] < y.iloc[-1]] and [x.iloc[-1] > y.iloc[-1]]; a threshold is
    the constant operand [Ok (Val t)]. *)
Definition last_lt (x y : result float64) : result bool :=
  a <- x ;; b <- y ;; Ok (flt a b).

Definition last_gt (x y : result float64) : result bool :=
  a <- x ;; b <- y ;; Ok (fgt a b).

Definition threshold (t : Q) : result float64 := Ok (Val t).

(** *** Sideways market: Bollinger Bands, RSI and Stochastic Oscillator *)

Definition sideways_market_strategy (talib : Talib) (data : DataFrame)
    (bbands_period rsi_period stochastic_period stochastic_slowk stochastic_slowd : nat)
    : result string :=
  let '(upperband, middleband, lowerband) :=
    BBANDS talib (Close data) bbands_period 2 2 0%nat in
  let rsi := RSI talib (Close data) rsi_period in
  let '(slowk, slowd) :=
    STOCH talib (High data) (Low data) (Close data)
          stochastic_period stochastic_slowk 0%nat stochastic_slowd 0%nat in
  let rsi_overbought := 70%Q in
  let rsi_oversold := 30%Q in
  let stochastic_overbought := 80%Q in
  let stochastic_oversold := 20%Q in
  buy <- or_else (last_lt (iloc_last (Close data)) (iloc_last lowerband))
           (or_else (last_lt (iloc_last rsi) (threshold rsi_oversold))
              (and_then (last_lt (iloc_last slowk) (threshold stochastic_oversold))
                        (last_gt (iloc_last slowk) (iloc_last slowd)))) ;;
  if buy then Ok "buy"
  else
    sell <- or_else (last_gt (iloc_last (Close data)) (iloc_last upperband))
              (or_else (last_gt (iloc_last rsi) (threshold rsi_overbought))
                 (and_then (last_gt (iloc_last slowk) (threshold stochastic_overbought))
                           (last_lt (iloc_last slowk) (iloc_last slowd)))) ;;
    if sell then Ok "sell" else Ok "hold".

(** *** The three trend votes

    The locals [sma_signal], [macd_signal] and [adx_signal], computed the same
    way by [hybrid_trend_following_strategy] and by
    [consensus_trend_following_strategy]. *)

(** ['buy' if c else 'sell'] *)
Definition vote (c : bool) : string := if c then "buy" else "sell".

Definition sma_signal (data : DataFrame) (sma_short_window sma_long_window : nat)
    : result string :=
  let sma_short := rolling_mean sma_short_window (Some 1%nat) (Close data) in
  let sma_long := rolling_mean sma_long_window (Some 1%nat) (Close data) in
  c <- last_gt (iloc_last sma_short) (iloc_last sma_long) ;;
  Ok (vote c).

Definition macd_signal (talib : Talib) (data : DataFrame)
    (macd_fast macd_slow macd_signalperiod : nat) : result string :=
  let '(macd, macdsignal, _) :=
    MACD talib (Close data) macd_fast macd_slow macd_signalperiod in
  c <- last_gt (iloc_last macd) (iloc_last macdsignal) ;;
  Ok (vote c).

Definition adx_signal (talib : Talib) (data : DataFrame)
    (adx_window : nat) (adx_threshold : Q) : result string :=
  let adx := ADX talib (High data) (Low data) (Close data) adx_window in
  c <- last_gt (iloc_last adx) (threshold adx_threshold) ;;
  Ok (vote c).

(** [signals.count(x)] *)
Definition count (signals : list string) (x : string) : nat :=
  count_occ string_dec signals x.

(** *** Trending market: volatility-gated voting *)

Definition hybrid_trend_following_strategy (talib : Talib) (data : DataFrame)
    (sma_short_window sma_long_window macd_fast macd_slow macd_signalperiod : nat)
    (adx_window : nat) (adx_threshold : Q) (atr_window : nat)
    (volatility_threshold : Q) : result string :=
  let atr := ATR talib (High data) (Low data) (Close data) atr_window in
  sma_signal <- sma_signal data sma_short_window sma_long_window ;;
  macd_signal <- macd_signal talib data macd_fast macd_slow macd_signalperiod ;;
  adx_signal <- adx_signal talib data adx_window adx_threshold ;;
  current_volatility <- iloc_last atr ;;
  let is_volatile := fgt current_volatility (Val volatility_threshold) in
  let signals := [sma_signal; macd_signal; adx_signal] in
  let buy_signals := count signals "buy" in
  let sell_signals := count signals "sell" in
  if is_volatile then
    if (2 <=? buy_signals)%nat then Ok "buy"
    else if (2 <=? sell_signals)%nat then Ok "sell"
    else Ok "hold"
  else
    if (buy_signals =? 3)%nat then Ok "buy"
    else if (sell_signals =? 3)%nat then Ok "sell"
    else Ok "hold".

(** *** Flat two-out-of-three consensus
    ([two_out_of_three_strat_trending.py]) *)

Definition consensus_trend_following_strategy (talib : Talib) (data : DataFrame)
    (sma_short_window sma_long_window macd_fast macd_slow macd_signalperiod : nat)
    (adx_window : nat) (adx_threshold : Q) : result string :=
  sma_signal <- sma_signal data sma_short_window sma_long_window ;;
  macd_signal <- macd_signal talib data macd_fast macd_slow macd_signalperiod ;;
  adx_signal <- adx_signal talib data adx_window adx_threshold ;;
  let signals := [sma_signal; macd_signal; adx_signal] in
  let buy_signals := count signals "buy" in
  let sell_signals := count signals "sell" in
  if (2 <=? buy_signals)%nat then Ok "buy"
  else if (2 <=? sell_signals)%nat then Ok "sell"
  else Ok "hold".

(** *** Volatile market: ATR, Bollinger Bands and RSI *)

(** The returned dict [{'action': ..., 'stop_loss': ...}]; [None] is Python's
    [None]. *)
Record SignalDict : Type := {
  action : string;
  stop_loss : option float64
}.

Definition volatile_market_strategy (talib : Talib) (data : DataFrame)
    (atr_period bbands_period : nat) (bbands_std_dev : Q) (rsi_period : nat)
    (rsi_overbought rsi_oversold atr_multiplier : Q) : result SignalDict :=
  let atr := ATR talib (High data) (Low data) (Close data) atr_period in
  let '(upperband, middleband, lowerband) :=
    BBANDS talib (Close data) bbands_period bbands_std_dev bbands_std_dev 0%nat in
  let rsi := RSI talib (Close data) rsi_period in
  is_overbought <- last_gt (iloc_last rsi) (threshold rsi_overbought) ;;
  is_oversold <- last_lt (iloc_last rsi) (threshold rsi_oversold) ;;
  price_above_upper_band <- last_gt (iloc_last (Close data)) (iloc_last upperband) ;;
  price_below_lower_band <- last_lt (iloc_last (Close data)) (iloc_last lowerband) ;;
  current_atr <- iloc_last atr ;;
  let stop_loss := None in
  if is_oversold && price_below_lower_band then
    close <- iloc_last (Close data) ;;
    let stop_loss := fsub close (fmul (Val atr_multiplier) current_atr) in
    Ok {| action := "buy"; stop_loss := Some stop_loss |}
  else if is_overbought && price_above_upper_band then
    close <- iloc_last (Close data) ;;
    let stop_loss := fadd close (fmul (Val atr_multiplier) current_atr) in
    Ok {| action := "sell"; stop_loss := Some stop_loss |}
  else Ok {| action := "hold"; stop_loss := stop_loss |}.

(** *** Default: MACD, RSI and Parabolic SAR in full agreement *)

Definition default_strategy (talib : Talib) (data : DataFrame)
    (macd_fast macd_slow macd_signalperiod rsi_period : nat)
    (rsi_overbought rsi_oversold sar_step sar_maximum : Q) : result string :=
  let '(macd, macdsignal, _) :=
    MACD talib (Close data) macd_fast macd_slow macd_signalperiod in
  let rsi := RSI talib (Close data) rsi_period in
  let sar := SAR talib (High data) (Low data) sar_step sar_maximum in
  last_price <- iloc_last (Close data) ;;
  macd_cross_up <- last_gt (iloc_last macd) (iloc_last macdsignal) ;;
  macd_cross_down <- last_lt (iloc_last macd) (iloc_last macdsignal) ;;
  rsi_oversold <- last_lt (iloc_last rsi) (threshold rsi_oversold) ;;
  rsi_overbought <- last_gt (iloc_last rsi) (threshold rsi_overbought) ;;
  price_above_sar <- last_gt (Ok last_price) (iloc_last sar) ;;
  price_below_sar <- last_lt (Ok last_price) (iloc_last sar) ;;
  if macd_cross_up && rsi_oversold && price_above_sar then Ok "buy"
  else if macd_cross_down && rsi_overbought && price_below_sar then Ok "sell"
  else Ok "hold".

(** ** Strategy registry *)

(** What a strategy function returns: a [str] or a [dict]. *)
Inductive PyValue : Type :=
| PyStr (s : string)
| PyDict (d : SignalDict).

(** A strategy function object as the trading loop calls it,
    [trading_strategy(data)]: every keyword parameter at its default. *)
Definition Strategy : Type := Talib -> DataFrame -> result PyValue.

Definition hybrid_trend_following_strategy_fn : Strategy :=
  fun talib data =>
    r <- hybrid_trend_following_strategy talib data 50 200 12 26 9 14 25%Q 14 1%Q ;;
    Ok (PyStr r).

Definition sideways_market_strategy_fn : Strategy :=
  fun talib data =>
    r <- sideways_market_strategy talib data 20 14 14 3 3 ;;
    Ok (PyStr r).

Definition volatile_market_strategy_fn : Strategy :=
  fun talib data =>
    r <- volatile_market_strategy talib data 14 20 2%Q 14 70%Q 30%Q 1.5%Q ;;
    Ok (PyDict r).

Definition default_strategy_fn : Strategy :=
  fun talib data =>
    r <- default_strategy talib data 12 26 9 14 70%Q 30%Q 0.02%Q 0.2%Q ;;
    Ok (PyStr r).

Definition select_strategy_based_on_condition (market_condition : string) : Strategy :=
  if String.eqb market_condition "trending" then hybrid_trend_following_strategy_fn
  else if String.eqb market_condition "sideways" then sideways_market_strategy_fn
  else if String.eqb market_condition "volatile" then volatile_market_strategy_fn
  else default_strategy_fn.

(** ** Classification, dispatch and evaluation in sequence

    The value of [trading_action] in the body of [main_trading_loop]:
    [identify_market_condition(data)], then
    [select_strategy_based_on_condition(market_condition)], then
    [trading_strategy(data)]. *)
Definition trading_action (talib : Talib) (data : DataFrame) : result PyValue :=
  market_condition <- identify_market_condition talib data 14 20 5 ;;
  let trading_strategy := select_strategy_based_on_condition market_condition in
  trading_strategy talib data.

(** ** A recorded provider

    A stand-in for TA-Lib on concrete windows: every indicator is flat at a
    recorded reading, one cell per bar of the input.  A recorded [NaN] is the
    series TA-Lib returns while the window is still inside the indicator's
    lookback. *)

Record Snapshot : Type := {
  snap_adx : float64;
  snap_upperband : float64;
  snap_middleband : float64;
  snap_lowerband : float64;
  snap_rsi : float64;
  snap_slowk : float64;
  snap_slowd : float64;
  snap_macd : float64;
  snap_macdsignal : float64;
  snap_atr : float64;
  snap_sar : float64
}.

Definition flat (v : float64) (index : Series) : Series :=
  map (fun _ => v) index.

Definition recorded (s : Snapshot) : Talib := {|
  ADX := fun _ _ close _ => flat (snap_adx s) close;
  BBANDS := fun close _ _ _ _ =>
    (flat (snap_upperband s) close, flat (snap_middleband s) close,
     flat (snap_lowerband s) close);
  RSI := fun close _ => flat (snap_rsi s) close;
  STOCH := fun _ _ close _ _ _ _ _ =>
    (flat (snap_slowk s) close, flat (snap_slowd s) close);
  MACD := fun close _ _ _ =>
    (flat (snap_macd s) close, flat (snap_macdsignal s) close,
     series_binop fsub (flat (snap_macd s) close) (flat (snap_macdsignal s) close));
  ATR := fun _ _ close _ => flat (snap_atr s) close;
  SAR := fun high _ _ _ => flat (snap_sar s) high
|}.

(** A window of [n] bars whose five columns are all flat at [price]. *)
Definition flat_window (n : nat) (price : Q) : DataFrame :=
  let col := repeat (Val price) n in
  {| Open := col; High := col; Low := col; Close := col; Volume := col |}.

(** *** Recorded windows

    The windows the properties below are evaluated on.  Prices are flat at
    100; the readings are those of the named market situation. *)

(** A trend in a quiet market: ADX 30, narrow bands, MACD above its signal,
    ATR 0.5. *)
Definition quiet_uptrend : Snapshot := {|
  snap_adx := Val 30;
  snap_upperband := Val 102; snap_middleband := Val 100; snap_lowerband := Val 98;
  snap_rsi := Val 50;
  snap_slowk := Val 50; snap_slowd := Val 50;
  snap_macd := Val 1; snap_macdsignal := Val 0;
  snap_atr := Val 0.5;
  snap_sar := Val 99
|}.

(** The same readings with ATR 2, above the volatility threshold. *)
Definition volatile_uptrend : Snapshot := {|
  snap_adx := Val 30;
  snap_upperband := Val 102; snap_middleband := Val 100; snap_lowerband := Val 98;
  snap_rsi := Val 50;
  snap_slowk := Val 50; snap_slowd := Val 50;
  snap_macd := Val 1; snap_macdsignal := Val 0;
  snap_atr := Val 2;
  snap_sar := Val 99
|}.

(** Oversold below the lower band: RSI 25, lower band 101, ATR 2, MACD above
    its signal and price above the SAR. *)
Definition oversold_breakdown : Snapshot := {|
  snap_adx := Val 20;
  snap_upperband := Val 109; snap_middleband := Val 105; snap_lowerband := Val 101;
  snap_rsi := Val 25;
  snap_slowk := Val 50; snap_slowd := Val 50;
  snap_macd := Val 1; snap_macdsignal := Val 0;
  snap_atr := Val 2;
  snap_sar := Val 99
|}.

(** [oversold_breakdown] with the MACD line below its signal. *)
Definition oversold_breakdown_macd_down : Snapshot := {|
  snap_adx := Val 20;
  snap_upperband := Val 109; snap_middleband := Val 105; snap_lowerband := Val 101;
  snap_rsi := Val 25;
  snap_slowk := Val 50; snap_slowd := Val 50;
  snap_macd := Val (-1); snap_macdsignal := Val 0;
  snap_atr := Val 2;
  snap_sar := Val 99
|}.

(** Overbought inside the bands: RSI 80, no other trigger. *)
Definition overbought : Snapshot := {|
  snap_adx := Val 20;
  snap_upperband := Val 102; snap_middleband := Val 100; snap_lowerband := Val 98;
  snap_rsi := Val 80;
  snap_slowk := Val 50; snap_slowd := Val 50;
  snap_macd := Val 1; snap_macdsignal := Val 0;
  snap_atr := Val 0.5;
  snap_sar := Val 99
|}.

(** RSI 80 while the stochastic oscillator crosses up in its oversold zone
    (%K 10 above %D 5): closes that keep rising under long upper wicks. *)
Definition overbought_with_stochastic_cross_up : Snapshot := {|
  snap_adx := Val 20;
  snap_upperband := Val 102; snap_middleband := Val 100; snap_lowerband := Val 98;
  snap_rsi := Val 80;
  snap_slowk := Val 10; snap_slowd := Val 5;
  snap_macd := Val 1; snap_macdsignal := Val 0;
  snap_atr := Val 0.5;
  snap_sar := Val 99
|}.

(** Every indicator still inside its lookback. *)
Definition inside_lookback : Snapshot := {|
  snap_adx := NaN;
  snap_upperband := NaN; snap_middleband := NaN; snap_lowerband := NaN;
  snap_rsi := NaN;
  snap_slowk := NaN; snap_slowd := NaN;
  snap_macd := NaN; snap_macdsignal := NaN;
  snap_atr := NaN;
  snap_sar := NaN
|}.

(** ** Voting rules

    The two rules of the trend evaluators, as functions of the list of
    votes; the properties below relate the evaluators to them. *)
Definition two_of_three (signals : list string) : string :=
  if (2 <=? count signals "buy")%nat then "buy"
  else if (2 <=? count signals "sell")%nat then "sell"
  else "hold".

Definition three_of_three (signals : list string) : string :=
  if (count signals "buy" =? 3)%nat then "buy"
  else if (count signals "sell" =? 3)%nat then "sell"
  else "hold".

(** ** The trading loop: sizing, order submission and one cycle

    The part of [new.py] that talks to the exchange.  What the program does
    to the outside world is a trace of events; what the outside world answers
    is read from a [Client], whose methods return a value or raise.  The
    [decimal] and [float] conversions are taken from a record [Builtins]. *)

(** The reason of a [TypeError]. *)
Inductive TypeErrorReason : Type :=
| MultipleValues (function parameter : string)
| UnexpectedKeyword (function keyword : string)
| TooManyPositional (function : string) (given : nat)
| MissingArgument (function parameter : string)
| NotSubscriptable.

(** What an [except Exception] clause can catch here. *)
Inductive Exception : Type :=
| Evaluation (e : PyError)
| TypeError (why : TypeErrorReason)
| ValueError (msg : string)
| KeyError (key : string)
| OtherException (msg : string).

Inductive outcome (A : Type) : Type :=
| Returned (a : A)
| Raised (e : Exception).

Arguments Returned {A} a.
Arguments Raised {A} e.

(** A [decimal.Decimal]. *)
Inductive Decimal : Type :=
| DecimalNaN
| DecimalOf (q : Q).

(** A JSON object of the exchange: keys and string values. *)
Definition Json : Type := list (string * string).

(** The lines the loop prints, by their f-string. *)
Inductive Line : Type :=
| MarketConditionLine (symbol market_condition : string)
| ExecutingLine (trading_action : string) (trade_amount : float64)
| OrderResultLine (order_result : option Json)
| HoldingLine
| ErrorLine (e : Exception).

Inductive Event : Type :=
| Print (line : Line)
| BalanceRequest (asset : string)
| MarketBuy (symbol : string) (quantity : Decimal)
| MarketSell (symbol : string) (quantity : Decimal)
| Sleep (seconds : Q).

(** The answers of the exchange client. *)
Record Client : Type := {
  (* client.get_asset_balance(asset=...): a dict, or None for an unknown asset *)
  get_asset_balance : string -> outcome (option Json);
  (* client.order_market_buy(symbol=..., quantity=...) *)
  order_market_buy : string -> Decimal -> outcome Json;
  (* client.order_market_sell(symbol=..., quantity=...) *)
  order_market_sell : string -> Decimal -> outcome Json
}.

Record Builtins : Type := {
  (* float(s) *)
  float_of_str : string -> outcome float64;
  (* decimal.Decimal(str(x)).quantize(decimal.Decimal('1.00000000')) *)
  quantize : float64 -> outcome Decimal
}.

(** A computation: the events it performed, and its value or exception. *)
Definition io (A : Type) : Type := list Event * outcome A.

Definition io_ret {A : Type} (a : A) : io A := ([], Returned a).

Definition io_bind {A B : Type} (c : io A) (k : A -> io B) : io B :=
  match c with
  | (t, Returned a) => let '(t', r) := k a in ((t ++ t')%list, r)
  | (t, Raised e) => (t, Raised e)
  end.

Declare Scope io_scope.
Delimit Scope io_scope with io.
Notation "x <- c ;; k" := (io_bind c (fun x => k))
  (at level 61, c at next level, right associativity) : io_scope.

Definition emit (ev : Event) : io unit := ([ev], Returned tt).

Definition raise {A : Type} (e : Exception) : io A := ([], Raised e).

(** A call to the outside: the event, then the answer. *)
Definition call {A : Type} (ev : Event) (answer : outcome A) : io A := ([ev], answer).

Definition of_outcome {A : Type} (o : outcome A) : io A := ([], o).

Definition of_result {A : Type} (r : result A) : io A :=
  match r with
  | Ok a => io_ret a
  | Err e => raise (Evaluation e)
  end.

(** [try: c except Exception as e: handler e] *)
Definition try_except {A : Type} (c : io A) (handler : Exception -> io A) : io A :=
  match c with
  | (t, Raised e) => let '(t', r) := handler e in ((t ++ t')%list, r)
  | (t, Returned a) => (t, Returned a)
  end.

(** [d[key]] on a dict. *)
Fixpoint getitem (d : Json) (key : string) : outcome string :=
  match d with
  | [] => Raised (KeyError key)
  | (k, v) :: d' => if String.eqb k key then Returned v else getitem d' key
  end.

(** [s.lower()] on the ASCII letters.  No other character lowercases to a
    letter of ['buy'] or ['sell']. *)
Definition lower_ascii (c : Ascii.ascii) : Ascii.ascii :=
  let n := Ascii.nat_of_ascii c in
  if (65 <=? n)%nat && (n <=? 90)%nat then Ascii.ascii_of_nat (n + 32) else c.

Fixpoint lower (s : string) : string :=
  match s with
  | EmptyString => EmptyString
  | String c s' => String (lower_ascii c) (lower s')
  end.

Definition get_balance (py : Builtins) (client : Client) (asset : string) : io float64 :=
  (balance <- call (BalanceRequest asset) (get_asset_balance client asset) ;;
   free <- of_outcome (match balance with
                       | Some d => getitem d "free"
                       | None => Raised (TypeError NotSubscriptable)
                       end) ;;
   of_outcome (float_of_str py free))%io.

(** [balance * risk_percentage / 100] *)
Definition percentage_of (balance : float64) (risk_percentage : Q) : float64 :=
  match balance with
  | Val b => Val (b * risk_percentage / 100)
  | NaN => NaN
  end.

Definition calculate_trade_amount (py : Builtins) (client : Client) (asset : string)
    (risk_percentage : Q) : io float64 :=
  (balance <- get_balance py client asset ;;
   let trade_amount := percentage_of balance risk_percentage in
   io_ret trade_amount)%io.

Definition execute_trade (py : Builtins) (client : Client) (symbol side : string)
    (trade_amount : float64) : io (option Json) :=
  (trade_amount <- of_outcome (quantize py trade_amount) ;;
   try_except
     (order <-
        (if String.eqb (lower side) "buy"
         then call (MarketBuy symbol trade_amount)
                   (order_market_buy client symbol trade_amount)
         else if String.eqb (lower side) "sell"
         then call (MarketSell symbol trade_amount)
                   (order_market_sell client symbol trade_amount)
         else raise (ValueError "Trade side must be 'buy' or 'sell'")) ;;
      io_ret (Some order))
     (fun e => _ <- emit (Print (ErrorLine e)) ;; io_ret None))%io.

(** The body of the [try] block of [main_trading_loop] past the fetch, on a
    frame that carries the columns the evaluators read. *)
Definition trading_cycle (py : Builtins) (talib : Talib) (client : Client)
    (symbol : string) (risk_percentage : Q) (data : DataFrame) : io unit :=
  (market_condition <- of_result (identify_market_condition talib data 14 20 5) ;;
   _ <- emit (Print (MarketConditionLine symbol market_condition)) ;;
   let trading_strategy := select_strategy_based_on_condition market_condition in
   trading_action <- of_result (trading_strategy talib data) ;;
   match trading_action with
   | PyStr side =>
       (* trading_action in ['buy', 'sell'] *)
       if String.eqb side "buy" || String.eqb side "sell" then
         trade_amount <- calculate_trade_amount py client "USDT" risk_percentage ;;
         _ <- emit (Print (ExecutingLine side trade_amount)) ;;
         order_result <- execute_trade py client symbol side trade_amount ;;
         emit (Print (OrderResultLine order_result))
       else emit (Print HoldingLine)
   | PyDict _ => emit (Print HoldingLine)
   end)%io.

(** The orders of a trace. *)
Definition is_order (ev : Event) : bool :=
  match ev with
  | MarketBuy _ _ | MarketSell _ _ => true
  | _ => false
  end.

Definition orders (trace : list Event) : list Event := filter is_order trace.

(** *** Calling a function

    How Python binds the arguments of a call to the parameters of a [def]
    with positional-or-keyword parameters: positional arguments fill the
    parameters from the left, each keyword argument must name a parameter not
    yet filled, and a parameter left unfilled takes its default. *)

Record Formal (V : Type) : Type := {
  parameter_name : string;
  parameter_default : option V
}.

Arguments parameter_name {V} _.
Arguments parameter_default {V} _.

Section Binding.

Context {V : Type}.

(** Positional arguments against the parameters: the bound pairs, the
    parameters still unfilled, and the number of arguments left over. *)
Fixpoint bind_positional (params : list (Formal V)) (positional : list V)
    : list (string * V) * list (Formal V) * nat :=
  match params, positional with
  | p :: params', v :: positional' =>
      let '(bound, rest, extra) := bind_positional params' positional' in
      ((parameter_name p, v) :: bound, rest, extra)
  | [], _ => ([], [], List.length positional)
  | _, [] => ([], params, 0%nat)
  end.

Definition names (bound : list (string * V)) : list string := map fst bound.

Definition is_parameter (params : list (Formal V)) (name : string) : bool :=
  existsb (fun p => String.eqb (parameter_name p) name) params.

Fixpoint lookup_argument (bound : list (string * V)) (name : string) : option V :=
  match bound with
  | [] => None
  | (k, v) :: bound' => if String.eqb k name then Some v else lookup_argument bound' name
  end.

(** Keyword arguments, in order, against what is bound so far. *)
Fixpoint bind_keywords (function : string) (params : list (Formal V))
    (bound : list (string * V)) (keywords : list (string * V))
    : outcome (list (string * V)) :=
  match keywords with
  | [] => Returned bound
  | (k, v) :: keywords' =>
      if negb (is_parameter params k)
      then Raised (TypeError (UnexpectedKeyword function k))
      else if existsb (String.eqb k) (names bound)
      then Raised (TypeError (MultipleValues function k))
      else bind_keywords function params ((k, v) :: bound) keywords'
  end.

(** Defaults for the parameters left unfilled. *)
Fixpoint fill_defaults (function : string) (params : list (Formal V))
    (bound : list (string * V)) : outcome (list (string * V)) :=
  match params with
  | [] => Returned []
  | p :: params' =>
      match lookup_argument bound (parameter_name p), parameter_default p with
      | Some v, _ | None, Some v =>
          match fill_defaults function params' bound with
          | Returned args => Returned ((parameter_name p, v) :: args)
          | Raised e => Raised e
          end
      | None, None => Raised (TypeError (MissingArgument function (parameter_name p)))
      end
  end.

Definition bind_arguments (function : string) (params : list (Formal V))
    (positional : list V) (keywords : list (string * V))
    : outcome (list (string * V)) :=
  let '(bound, _, extra) := bind_positional params positional in
  match bind_keywords function params bound keywords with
  | Raised e => Raised e
  | Returned bound' =>
      if (0 <? extra)%nat
      then Raised (TypeError (TooManyPositional function (List.length positional)))
      else fill_defaults function params bound'
  end.

End Binding.

(** The arguments at the call site of line 300: objects of the program. *)
Inductive PyObject : Type :=
| TheClient
| Str (s : string).

(** [def fetch_binance_data(symbol, interval='1m', lookback='1 day')] *)
Definition fetch_binance_data_parameters : list (Formal PyObject) :=
  [ {| parameter_name := "symbol"; parameter_default := None |};
    {| parameter_name := "interval"; parameter_default := Some (Str "1m") |};
    {| parameter_name := "lookback"; parameter_default := Some (Str "1 day") |} ].

Section MainTradingLoop.

(** The frame [fetch_binance_data] builds with pandas and the exchange
    client, and what the rest of the [try] block does with it, are taken as
    they come; both may differ from one iteration to the next. *)
Variable Frame : Type.
Variable fetch_binance_data_body : nat -> list (string * PyObject) -> io Frame.
Variable rest_of_try_block : nat -> Frame -> io unit.

(** One pass through the body of [while True]. *)
Definition main_trading_loop_iteration (i : nat) (symbol interval : string)
    (sleep_time : Q) : list Event :=
  fst (_ <- try_except
              (* fetch_binance_data(client, symbol, interval=interval) *)
              (arguments <- of_outcome
                              (bind_arguments "fetch_binance_data"
                                 fetch_binance_data_parameters
                                 [TheClient; Str symbol]
                                 [("interval", Str interval)]) ;;
               data <- fetch_binance_data_body i arguments ;;
               rest_of_try_block i data)
              (fun e => emit (Print (ErrorLine e))) ;;
       emit (Sleep sleep_time))%io.

(** The events of the first [n] passes of the loop, which never returns. *)
Fixpoint main_trading_loop (n : nat) (symbol interval : string) (sleep_time : Q)
    : list Event :=
  match n with
  | O => []
  | S n' =>
      (main_trading_loop n' symbol interval sleep_time
       ++ main_trading_loop_iteration n' symbol interval sleep_time)%list
  end.

End MainTradingLoop.

(** *** Recorded exchanges and windows for the loop *)

(** Wide bands with the close under the lower one and an oversold RSI: the
    width ratio is 3.99 and the ADX 20. *)
Definition volatile_breakdown : Snapshot := {|
  snap_adx := Val 20;
  snap_upperband := Val 500; snap_middleband := Val 100; snap_lowerband := Val 101;
  snap_rsi := Val 25;
  snap_slowk := Val 50; snap_slowd := Val 50;
  snap_macd := Val 1; snap_macdsignal := Val 0;
  snap_atr := Val 2;
  snap_sar := Val 99
|}.

(** Three bars with rising closes. *)
Definition rising_window : DataFrame :=
  let col := [Val 100; Val 101; Val 102] in
  {| Open := col; High := col; Low := col; Close := col; Volume := col |}.

(** An exchange with 1000 USDT free that fills every order. *)
Definition paper_client : Client := {|
  get_asset_balance := fun asset =>
    Returned (Some [("asset", asset); ("free", "1000.00000000");
                    ("locked", "0.00000000")]);
  order_market_buy := fun symbol _ =>
    Returned [("symbol", symbol); ("side", "BUY"); ("status", "FILLED")];
  order_market_sell := fun symbol _ =>
    Returned [("symbol", symbol); ("side", "SELL"); ("status", "FILLED")]
|}.

(** An exchange that cannot be reached. *)
Definition unreachable_client : Client := {|
  get_asset_balance := fun _ => Raised (OtherException "Connection refused");
  order_market_buy := fun _ _ => Raised (OtherException "Connection refused");
  order_market_sell := fun _ _ => Raised (OtherException "Connection refused")
|}.

(** [float] on the one amount [paper_client] reports, and [quantize] on
    amounts that already have at most eight decimals. *)
Definition recorded_builtins : Builtins := {|
  float_of_str := fun s =>
    if String.eqb s "1000.00000000" then Returned (Val 1000)
    else Raised (ValueError "could not convert string to float");
  quantize := fun x =>
    match x with
    | Val q => Returned (DecimalOf q)
    | NaN => Returned DecimalNaN
    end
|}.

(** * Properties *)

(** ** Comparisons on cells *)

Lemma Qgtb_true (x y : Q) : Qgtb x y = true <-> (y < x)%Q.
Proof.
  unfold Qgtb. split.
  - destruct (x ?= y)%Q eqn:E; try discriminate. intros _. now apply Qgt_alt.
  - intros H. assert (E : (x ?= y)%Q = Gt) by (now apply Qgt_alt).
    now rewrite E.
Qed.

Lemma Qltb_true (x y : Q) : Qltb x y = true <-> (x < y)%Q.
Proof.
  unfold Qltb. split.
  - destruct (x ?= y)%Q eqn:E; try discriminate. intros _. now apply Qlt_alt.
  - intros H. assert (E : (x ?= y)%Q = Lt) by (now apply Qlt_alt).
    now rewrite E.
Qed.

Lemma fgt_Val (x y : Q) : fgt (Val x) (Val y) = true <-> (y < x)%Q.
Proof. apply Qgtb_true. Qed.

Lemma flt_Val (x y : Q) : flt (Val x) (Val y) = true <-> (x < y)%Q.
Proof. apply Qltb_true. Qed.

Lemma fgt_Val_false (x y : Q) : fgt (Val x) (Val y) = false <-> ~ (y < x)%Q.
Proof.
  rewrite <- fgt_Val. destruct (fgt (Val x) (Val y)); split; congruence.
Qed.

Lemma fgt_NaN_l (b : float64) : fgt NaN b = false.
Proof. reflexivity. Qed.

Lemma fgt_NaN_r (a : float64) : fgt a NaN = false.
Proof. now destruct a. Qed.

Lemma flt_NaN_l (b : float64) : flt NaN b = false.
Proof. reflexivity. Qed.

Lemma flt_NaN_r (a : float64) : flt a NaN = false.
Proof. now destruct a. Qed.

(** A cell is never both above and below another one. *)
Lemma fgt_flt_excl (a b : float64) : fgt a b = true -> flt a b = false.
Proof.
  destruct a as [|x], b as [|y]; cbn [fgt flt]; try easy.
  unfold Qgtb, Qltb. now destruct (x ?= y)%Q.
Qed.

(** A cell below [lo] is not above [hi] when [lo <= hi]. *)
Lemma flt_fgt_thresholds (a : float64) (lo hi : Q) :
  (lo <= hi)%Q -> flt a (Val lo) = true -> fgt a (Val hi) = false.
Proof.
  intros Hle H. destruct a as [|x]; [reflexivity|].
  apply flt_Val in H. apply fgt_Val_false. intros H'.
  apply (Qlt_irrefl x). eapply Qlt_trans; [exact H|].
  eapply Qle_lt_trans; eassumption.
Qed.

(** ** Regime classifier: decision order *)

(** C1.  On every window whose last smoothed ADX [a] and last smoothed
    Bollinger width ratio [w] are defined, the classifier returns
    ["trending and volatile"] when [a > 25] and [w > 2.0], ["trending"] when
    only [a > 25], ["volatile"] when only [w > 2.0], and ["sideways"] when
    neither threshold is exceeded. *)
Theorem identify_market_condition_decision_order
    (talib : Talib) (data : DataFrame)
    (adx_window bbands_window smoothing_window : nat) (a w : Q)
    (Hadx : iloc_last (smoothed_adx talib data adx_window smoothing_window)
            = Ok (Val a))
    (Hwidth : iloc_last (smoothed_bbands_width talib data bbands_window smoothing_window)
              = Ok (Val w)) :
  let regime :=
    identify_market_condition talib data adx_window bbands_window smoothing_window in
  ((25 < a)%Q /\ (2 < w)%Q -> regime = Ok "trending and volatile") /\
  ((25 < a)%Q /\ ~ (2 < w)%Q -> regime = Ok "trending") /\
  (~ (25 < a)%Q /\ (2 < w)%Q -> regime = Ok "volatile") /\
  (~ (25 < a)%Q /\ ~ (2 < w)%Q -> regime = Ok "sideways").
Proof.
  intros regime. subst regime. unfold identify_market_condition.
  rewrite Hadx, Hwidth. cbn [bind].
  unfold ADX_THRESHOLD, BBANDS_WIDTH_THRESHOLD.
  repeat split; intros [Ha Hw].
  - apply fgt_Val in Ha, Hw. now rewrite Ha, Hw.
  - apply fgt_Val in Ha. apply fgt_Val_false in Hw. now rewrite Ha, Hw.
  - apply fgt_Val_false in Ha. apply fgt_Val in Hw. now rewrite Ha, Hw.
  - apply fgt_Val_false in Ha, Hw. now rewrite Ha, Hw.
Qed.

(** ** Strategy registry *)

(** C2.  The registry is total: ["trending"] selects the hybrid
    trend-following evaluator, ["sideways"] the mean-reversion evaluator,
    ["volatile"] the volatile-market evaluator, and every other value, among
    them ["trending and volatile"], selects the default evaluator through the
    final [else] branch. *)
Theorem select_strategy_based_on_condition_total (market_condition : string) :
  (market_condition = "trending" ->
   select_strategy_based_on_condition market_condition
   = hybrid_trend_following_strategy_fn) /\
  (market_condition = "sideways" ->
   select_strategy_based_on_condition market_condition
   = sideways_market_strategy_fn) /\
  (market_condition = "volatile" ->
   select_strategy_based_on_condition market_condition
   = volatile_market_strategy_fn) /\
  (market_condition <> "trending" ->
   market_condition <> "sideways" ->
   market_condition <> "volatile" ->
   select_strategy_based_on_condition market_condition = default_strategy_fn) /\
  select_strategy_based_on_condition "trending and volatile" = default_strategy_fn.
Proof.
  unfold select_strategy_based_on_condition.
  repeat split; try (intros ->; reflexivity).
  intros Ht Hs Hv.
  destruct (String.eqb_spec market_condition "trending"); [contradiction|].
  destruct (String.eqb_spec market_condition "sideways"); [contradiction|].
  destruct (String.eqb_spec market_condition "volatile"); [contradiction|].
  reflexivity.
Qed.


(** ** The trend votes are binary *)

Lemma vote_binary (c : bool) : vote c = "buy" \/ vote c = "sell".
Proof. destruct c; [left | right]; reflexivity. Qed.

Lemma sma_signal_binary (data : DataFrame) (short long : nat) (v : string) :
  sma_signal data short long = Ok v -> v = "buy" \/ v = "sell".
Proof.
  unfold sma_signal. destruct (last_gt _ _) as [c|e]; cbn [bind]; [|discriminate].
  intros H. injection H as <-. apply vote_binary.
Qed.

Lemma macd_signal_binary (talib : Talib) (data : DataFrame)
    (fast slow signalperiod : nat) (v : string) :
  macd_signal talib data fast slow signalperiod = Ok v -> v = "buy" \/ v = "sell".
Proof.
  unfold macd_signal. destruct (MACD _ _ _ _ _) as [[macd macdsignal] hist].
  destruct (last_gt _ _) as [c|e]; cbn [bind]; [|discriminate].
  intros H. injection H as <-. apply vote_binary.
Qed.

Lemma adx_signal_binary (talib : Talib) (data : DataFrame)
    (adx_window : nat) (adx_threshold : Q) (v : string) :
  adx_signal talib data adx_window adx_threshold = Ok v -> v = "buy" \/ v = "sell".
Proof.
  unfold adx_signal. destruct (last_gt _ _) as [c|e]; cbn [bind]; [|discriminate].
  intros H. injection H as <-. apply vote_binary.
Qed.

Section TrendVoting.

Variables (talib : Talib) (data : DataFrame).
Variables (sma_short_window sma_long_window : nat).
Variables (macd_fast macd_slow macd_signalperiod adx_window atr_window : nat).
Variables (adx_threshold volatility_threshold : Q).

Let hybrid : result string :=
  hybrid_trend_following_strategy talib data sma_short_window sma_long_window
    macd_fast macd_slow macd_signalperiod adx_window adx_threshold atr_window
    volatility_threshold.

Let consensus : result string :=
  consensus_trend_following_strategy talib data sma_short_window sma_long_window
    macd_fast macd_slow macd_signalperiod adx_window adx_threshold.

Lemma hybrid_by_votes (sv mv av : string) (atr : float64) :
  sma_signal data sma_short_window sma_long_window = Ok sv ->
  macd_signal talib data macd_fast macd_slow macd_signalperiod = Ok mv ->
  adx_signal talib data adx_window adx_threshold = Ok av ->
  iloc_last (ATR talib (High data) (Low data) (Close data) atr_window) = Ok atr ->
  hybrid = Ok (if fgt atr (Val volatility_threshold)
               then two_of_three [sv; mv; av]
               else three_of_three [sv; mv; av]).
Proof.
  intros Hs Hm Ha Hatr. unfold hybrid, hybrid_trend_following_strategy.
  rewrite Hs, Hm, Ha, Hatr. cbn [bind].
  unfold two_of_three, three_of_three.
  destruct (fgt atr (Val volatility_threshold));
    repeat match goal with |- context [if ?b then _ else _] => destruct b end;
    reflexivity.
Qed.

Lemma consensus_by_votes (sv mv av : string) :
  sma_signal data sma_short_window sma_long_window = Ok sv ->
  macd_signal talib data macd_fast macd_slow macd_signalperiod = Ok mv ->
  adx_signal talib data adx_window adx_threshold = Ok av ->
  consensus = Ok (two_of_three [sv; mv; av]).
Proof.
  intros Hs Hm Ha. unfold consensus, consensus_trend_following_strategy.
  rewrite Hs, Hm, Ha. cbn [bind]. unfold two_of_three.
  repeat match goal with |- context [if ?b then _ else _] => destruct b end;
    reflexivity.
Qed.


(** Case analysis on the three binary votes, evaluating the voting rules. *)
Ltac eval_rule :=
  repeat match goal with
  | |- context [two_of_three ?l] =>
      let v := eval vm_compute in (two_of_three l) in
      change (two_of_three l) with v
  | |- context [three_of_three ?l] =>
      let v := eval vm_compute in (three_of_three l) in
      change (three_of_three l) with v
  | |- context [count ?l ?x] =>
      let v := eval vm_compute in (count l x) in
      change (count l x) with v
  end.

Ltac vote_cases Hs Hm Ha :=
  destruct (sma_signal_binary _ _ _ _ Hs);
  destruct (macd_signal_binary _ _ _ _ _ _ Hm);
  destruct (adx_signal_binary _ _ _ _ _ Ha);
  subst; eval_rule.

(** C3.  When the latest ATR is not greater than the volatility threshold,
    the hybrid evaluator returns ['buy'] exactly when the SMA, MACD and ADX
    votes are all ['buy'], ['sell'] exactly when all three are ['sell'], and
    ['hold'] as soon as one vote differs from another. *)
Theorem hybrid_unanimous_rule (sv mv av : string) (atr : float64) :
  sma_signal data sma_short_window sma_long_window = Ok sv ->
  macd_signal talib data macd_fast macd_slow macd_signalperiod = Ok mv ->
  adx_signal talib data adx_window adx_threshold = Ok av ->
  iloc_last (ATR talib (High data) (Low data) (Close data) atr_window) = Ok atr ->
  fgt atr (Val volatility_threshold) = false ->
  (hybrid = Ok "buy" <-> sv = "buy" /\ mv = "buy" /\ av = "buy") /\
  (hybrid = Ok "sell" <-> sv = "sell" /\ mv = "sell" /\ av = "sell") /\
  (~ (sv = mv /\ mv = av) -> hybrid = Ok "hold").
Proof.
  intros Hs Hm Ha Hatr Hcalm.
  rewrite (hybrid_by_votes sv mv av atr Hs Hm Ha Hatr), Hcalm.
  vote_cases Hs Hm Ha; intuition congruence.
Qed.

(** C4.  When the latest ATR is greater than the volatility threshold, the
    hybrid evaluator follows the majority of the three votes: two or three
    ['buy'] votes give ['buy'], one ['buy'] vote (hence two ['sell'] votes)
    gives ['sell'], and the same with the sides exchanged. *)
Theorem hybrid_majority_rule (sv mv av : string) (atr : float64) :
  sma_signal data sma_short_window sma_long_window = Ok sv ->
  macd_signal talib data macd_fast macd_slow macd_signalperiod = Ok mv ->
  adx_signal talib data adx_window adx_threshold = Ok av ->
  iloc_last (ATR talib (High data) (Low data) (Close data) atr_window) = Ok atr ->
  fgt atr (Val volatility_threshold) = true ->
  let buy_signals := count [sv; mv; av] "buy" in
  let sell_signals := count [sv; mv; av] "sell" in
  (buy_signals = 2%nat \/ buy_signals = 3%nat -> hybrid = Ok "buy") /\
  (buy_signals = 1%nat -> sell_signals = 2%nat /\ hybrid = Ok "sell") /\
  (sell_signals = 2%nat \/ sell_signals = 3%nat -> hybrid = Ok "sell") /\
  (sell_signals = 1%nat -> buy_signals = 2%nat /\ hybrid = Ok "buy").
Proof.
  intros Hs Hm Ha Hatr Hvol buy_signals sell_signals.
  subst buy_signals sell_signals.
  rewrite (hybrid_by_votes sv mv av atr Hs Hm Ha Hatr), Hvol.
  vote_cases Hs Hm Ha; intuition congruence.
Qed.

(** C10.  Under the two-out-of-three rule the evaluator never returns
    ['hold']: the hybrid evaluator when the latest ATR exceeds the volatility
    threshold, and the flat consensus variant always.  The three votes are
    each ['buy'] or ['sell'], so whenever the votes exist the result is
    ['buy'] or ['sell']. *)
Theorem majority_rule_never_holds :
  (forall atr,
      iloc_last (ATR talib (High data) (Low data) (Close data) atr_window) = Ok atr ->
      fgt atr (Val volatility_threshold) = true ->
      hybrid <> Ok "hold") /\
  consensus <> Ok "hold" /\
  (forall sv mv av atr,
      sma_signal data sma_short_window sma_long_window = Ok sv ->
      macd_signal talib data macd_fast macd_slow macd_signalperiod = Ok mv ->
      adx_signal talib data adx_window adx_threshold = Ok av ->
      iloc_last (ATR talib (High data) (Low data) (Close data) atr_window) = Ok atr ->
      fgt atr (Val volatility_threshold) = true ->
      (hybrid = Ok "buy" \/ hybrid = Ok "sell") /\
      (consensus = Ok "buy" \/ consensus = Ok "sell")).
Proof.
  assert (Hyes : forall sv mv av atr,
      sma_signal data sma_short_window sma_long_window = Ok sv ->
      macd_signal talib data macd_fast macd_slow macd_signalperiod = Ok mv ->
      adx_signal talib data adx_window adx_threshold = Ok av ->
      iloc_last (ATR talib (High data) (Low data) (Close data) atr_window) = Ok atr ->
      fgt atr (Val volatility_threshold) = true ->
      (hybrid = Ok "buy" \/ hybrid = Ok "sell") /\
      (consensus = Ok "buy" \/ consensus = Ok "sell")).
  { intros sv mv av atr Hs Hm Ha Hatr Hvol.
    rewrite (hybrid_by_votes sv mv av atr Hs Hm Ha Hatr), Hvol.
    rewrite (consensus_by_votes sv mv av Hs Hm Ha).
    vote_cases Hs Hm Ha; auto. }
  assert (Hcons : forall sv mv av,
      sma_signal data sma_short_window sma_long_window = Ok sv ->
      macd_signal talib data macd_fast macd_slow macd_signalperiod = Ok mv ->
      adx_signal talib data adx_window adx_threshold = Ok av ->
      consensus <> Ok "hold").
  { intros sv mv av Hs Hm Ha.
    rewrite (consensus_by_votes sv mv av Hs Hm Ha).
    vote_cases Hs Hm Ha; discriminate. }
  split; [|split; [|exact Hyes]].
  - intros atr Hatr Hvol.
    destruct (sma_signal data sma_short_window sma_long_window) as [sv|e] eqn:Hs;
      [|unfold hybrid, hybrid_trend_following_strategy; rewrite Hs; discriminate].
    destruct (macd_signal talib data macd_fast macd_slow macd_signalperiod)
      as [mv|e] eqn:Hm;
      [|unfold hybrid, hybrid_trend_following_strategy; rewrite Hs, Hm; discriminate].
    destruct (adx_signal talib data adx_window adx_threshold) as [av|e] eqn:Ha;
      [|unfold hybrid, hybrid_trend_following_strategy; rewrite Hs, Hm, Ha;
        discriminate].
    destruct (Hyes sv mv av atr eq_refl eq_refl eq_refl Hatr Hvol) as [[H|H] _];
      rewrite H; discriminate.
  - destruct (sma_signal data sma_short_window sma_long_window) as [sv|e] eqn:Hs;
      [|unfold consensus, consensus_trend_following_strategy; rewrite Hs; discriminate].
    destruct (macd_signal talib data macd_fast macd_slow macd_signalperiod)
      as [mv|e] eqn:Hm;
      [|unfold consensus, consensus_trend_following_strategy; rewrite Hs, Hm;
        discriminate].
    destruct (adx_signal talib data adx_window adx_threshold) as [av|e] eqn:Ha;
      [|unfold consensus, consensus_trend_following_strategy; rewrite Hs, Hm, Ha;
        discriminate].
    exact (Hcons sv mv av eq_refl eq_refl eq_refl).
Qed.

End TrendVoting.

(** ** Threshold evaluators *)

(** Replace every [.iloc[-1]] by the reading an hypothesis gives for it. *)
Ltac read_latest :=
  unfold last_gt, last_lt, threshold, or_else, and_then;
  repeat match goal with
  | H : iloc_last ?s = Ok _ |- context [iloc_last ?s] => rewrite H
  end;
  cbn [bind].

(** C5.  The volatile-market evaluator returns ['buy'] with stop-loss
    [close - 1.5 * ATR] exactly when RSI < 30 and close is below the lower
    band, ['sell'] with stop-loss [close + 1.5 * ATR] exactly when RSI > 70
    and close is above the upper band, and ['hold'] with no stop-loss
    otherwise; a ['hold'] result never carries a stop-loss. *)
Theorem volatile_market_strategy_rule
    (talib : Talib) (data : DataFrame)
    (atr_period bbands_period : nat) (bbands_std_dev : Q) (rsi_period : nat)
    (upperband middleband lowerband : Series)
    (rsi close upper lower atr : float64) :
  BBANDS talib (Close data) bbands_period bbands_std_dev bbands_std_dev 0%nat
  = (upperband, middleband, lowerband) ->
  iloc_last (RSI talib (Close data) rsi_period) = Ok rsi ->
  iloc_last (Close data) = Ok close ->
  iloc_last upperband = Ok upper ->
  iloc_last lowerband = Ok lower ->
  iloc_last (ATR talib (High data) (Low data) (Close data) atr_period) = Ok atr ->
  let out :=
    volatile_market_strategy talib data atr_period bbands_period bbands_std_dev
      rsi_period 70 30 1.5 in
  let oversold_below := flt rsi (Val 30) && flt close lower in
  let overbought_above := fgt rsi (Val 70) && fgt close upper in
  (out = Ok {| action := "buy";
               stop_loss := Some (fsub close (fmul (Val 1.5) atr)) |}
   <-> oversold_below = true) /\
  (out = Ok {| action := "sell";
               stop_loss := Some (fadd close (fmul (Val 1.5) atr)) |}
   <-> overbought_above = true) /\
  (out = Ok {| action := "hold"; stop_loss := None |}
   <-> oversold_below = false /\ overbought_above = false) /\
  (forall d, out = Ok d -> action d = "hold" -> stop_loss d = None).
Proof.
  intros HB Hrsi Hclose Hup Hlo Hatr out oversold_below overbought_above.
  subst out oversold_below overbought_above.
  unfold volatile_market_strategy. rewrite HB. read_latest.
  pose proof (flt_fgt_thresholds rsi 30 70) as Hexcl.
  destruct (flt rsi (Val 30)) eqn:E1.
  - rewrite Hexcl by (reflexivity || discriminate).
    destruct (flt close lower); cbn [andb];
      repeat split; intros; try congruence; try (intuition congruence);
      match goal with H : Ok _ = Ok ?d |- _ => injection H as <- end;
      try reflexivity; discriminate.
  - destruct (fgt rsi (Val 70)), (fgt close upper), (flt close lower); cbn [andb];
      repeat split; intros; try congruence; try (intuition congruence);
      match goal with H : Ok _ = Ok ?d |- _ => injection H as <- end;
      try reflexivity; discriminate.
Qed.

(** C6 (as the code has it).  The mean-reversion evaluator tests the buy
    triggers first: it returns ['buy'] if any of close < lower band, RSI < 30,
    (%K < 20 and %K > %D) holds; it returns ['sell'] if no buy trigger holds
    and any of close > upper band, RSI > 70, (%K > 80 and %K < %D) holds; it
    returns ['hold'] when no trigger holds. *)
Theorem sideways_market_strategy_rule
    (talib : Talib) (data : DataFrame)
    (bbands_period rsi_period stochastic_period stochastic_slowk stochastic_slowd : nat)
    (upperband middleband lowerband slowk slowd : Series)
    (close upper lower rsi k d : float64) :
  BBANDS talib (Close data) bbands_period 2 2 0%nat
  = (upperband, middleband, lowerband) ->
  STOCH talib (High data) (Low data) (Close data)
        stochastic_period stochastic_slowk 0%nat stochastic_slowd 0%nat
  = (slowk, slowd) ->
  iloc_last (Close data) = Ok close ->
  iloc_last upperband = Ok upper ->
  iloc_last lowerband = Ok lower ->
  iloc_last (RSI talib (Close data) rsi_period) = Ok rsi ->
  iloc_last slowk = Ok k ->
  iloc_last slowd = Ok d ->
  let out :=
    sideways_market_strategy talib data bbands_period rsi_period stochastic_period
      stochastic_slowk stochastic_slowd in
  let buy_trigger :=
    flt close lower || flt rsi (Val 30) || (flt k (Val 20) && fgt k d) in
  let sell_trigger :=
    fgt close upper || fgt rsi (Val 70) || (fgt k (Val 80) && flt k d) in
  (buy_trigger = true -> out = Ok "buy") /\
  (buy_trigger = false -> sell_trigger = true -> out = Ok "sell") /\
  (buy_trigger = false -> sell_trigger = false -> out = Ok "hold").
Proof.
  intros HB HS Hclose Hup Hlo Hrsi Hk Hd out buy_trigger sell_trigger.
  subst out buy_trigger sell_trigger.
  unfold sideways_market_strategy. rewrite HB, HS. read_latest.
  destruct (flt close lower), (flt rsi (Val 30)), (flt k (Val 20)), (fgt k d),
    (fgt close upper), (fgt rsi (Val 70)), (fgt k (Val 80)), (flt k d);
    cbn; repeat split; intros; congruence.
Qed.

(** C7.  The default evaluator returns ['buy'] exactly when MACD > signal,
    RSI < 30 and close > SAR all hold, and ['sell'] exactly when
    MACD < signal, RSI > 70 and close < SAR all hold.  On a window where one
    of the three conditions of a side fails while the other two hold, the
    result is ['hold']: there is no majority fallback. *)
Theorem default_strategy_full_consensus
    (talib : Talib) (data : DataFrame)
    (macd_fast macd_slow macd_signalperiod rsi_period : nat) (sar_step sar_maximum : Q)
    (macd macdsignal macdhist : Series)
    (last_price m s rsi sar : float64) :
  MACD talib (Close data) macd_fast macd_slow macd_signalperiod
  = (macd, macdsignal, macdhist) ->
  iloc_last (Close data) = Ok last_price ->
  iloc_last macd = Ok m ->
  iloc_last macdsignal = Ok s ->
  iloc_last (RSI talib (Close data) rsi_period) = Ok rsi ->
  iloc_last (SAR talib (High data) (Low data) sar_step sar_maximum) = Ok sar ->
  let out :=
    default_strategy talib data macd_fast macd_slow macd_signalperiod rsi_period
      70 30 sar_step sar_maximum in
  let macd_cross_up := fgt m s in
  let rsi_oversold := flt rsi (Val 30) in
  let price_above_sar := fgt last_price sar in
  let macd_cross_down := flt m s in
  let rsi_overbought := fgt rsi (Val 70) in
  let price_below_sar := flt last_price sar in
  (out = Ok "buy"
   <-> macd_cross_up = true /\ rsi_oversold = true /\ price_above_sar = true) /\
  (out = Ok "sell"
   <-> macd_cross_down = true /\ rsi_overbought = true /\ price_below_sar = true) /\
  (macd_cross_up = false -> rsi_oversold = true -> price_above_sar = true ->
   out = Ok "hold") /\
  (macd_cross_up = true -> rsi_oversold = false -> price_above_sar = true ->
   out = Ok "hold") /\
  (macd_cross_up = true -> rsi_oversold = true -> price_above_sar = false ->
   out = Ok "hold") /\
  (macd_cross_down = false -> rsi_overbought = true -> price_below_sar = true ->
   out = Ok "hold") /\
  (macd_cross_down = true -> rsi_overbought = false -> price_below_sar = true ->
   out = Ok "hold") /\
  (macd_cross_down = true -> rsi_overbought = true -> price_below_sar = false ->
   out = Ok "hold").
Proof.
  intros HM Hclose Hm Hs Hrsi Hsar out.
  subst out. cbv zeta.
  unfold default_strategy. rewrite HM. read_latest.
  pose proof (flt_fgt_thresholds rsi 30 70) as Hrsi_excl.
  pose proof (fgt_flt_excl m s) as Hmacd_excl.
  pose proof (fgt_flt_excl last_price sar) as Hsar_excl.
  destruct (fgt m s), (flt m s), (flt rsi (Val 30)), (fgt rsi (Val 70)),
    (fgt last_price sar), (flt last_price sar);
    cbn [andb];
    try (specialize (Hmacd_excl eq_refl); discriminate Hmacd_excl);
    try (specialize (Hsar_excl eq_refl); discriminate Hsar_excl);
    try (assert (true = false) as Habs
           by (apply Hrsi_excl; [discriminate | reflexivity]);
         discriminate Habs);
    repeat split; intros; try congruence; intuition congruence.
Qed.

(** ** The SMA vote on a tie *)

(** C8.  When the latest short-window SMA of close equals the latest
    long-window SMA, the SMA vote is ['sell']: the vote is
    ['buy' if short > long else 'sell'], with no case of its own for a tie. *)
Theorem sma_signal_tie_is_sell
    (data : DataFrame) (sma_short_window sma_long_window : nat) (short long : Q) :
  iloc_last (rolling_mean sma_short_window (Some 1%nat) (Close data)) = Ok (Val short) ->
  iloc_last (rolling_mean sma_long_window (Some 1%nat) (Close data)) = Ok (Val long) ->
  (short == long)%Q ->
  sma_signal data sma_short_window sma_long_window = Ok "sell".
Proof.
  intros Hshort Hlong Htie. unfold sma_signal. read_latest.
  assert (Hno : fgt (Val short) (Val long) = false).
  { apply fgt_Val_false. rewrite Htie. apply Qlt_irrefl. }
  now rewrite Hno.
Qed.

(** ** Series lengths and the last cell *)

Lemma iloc_last_app {A : Type} (l : list A) (x : A) : iloc_last (l ++ [x])%list = Ok x.
Proof.
  induction l as [|y l IH]; [reflexivity|].
  cbn [app iloc_last]. destruct (l ++ [x])%list eqn:E; [|exact IH].
  now destruct l.
Qed.

Lemma iloc_last_nonempty {A : Type} (s : list A) :
  (0 < List.length s)%nat -> exists x, iloc_last s = Ok x.
Proof.
  induction s as [|y s IH]; cbn [List.length]; [lia|]. intros _.
  destruct s as [|z s]; [now exists y|].
  apply IH. cbn [List.length]. lia.
Qed.

Lemma rolling_mean_length (window : nat) (min_periods : option nat) (s : Series) :
  List.length (rolling_mean window min_periods s) = List.length s.
Proof. unfold rolling_mean. now rewrite length_map, length_seq. Qed.

Lemma series_binop_length (f : float64 -> float64 -> float64) (a b : Series) :
  List.length (series_binop f a b) = Nat.max (List.length a) (List.length b).
Proof.
  revert b. induction a as [|x a IH]; intros b.
  - cbn. now rewrite length_map.
  - destruct b as [|y b].
    + cbn [series_binop]. rewrite length_map. cbn. lia.
    + cbn. now rewrite IH.
Qed.

Lemma observations_length (s : Series) :
  (List.length (observations s) <= List.length s)%nat.
Proof.
  induction s as [|[|q] s IH]; cbn [observations List.length]; lia.
Qed.

Lemma window_at_length (window : nat) (s : Series) (i : nat) :
  (List.length (window_at window s i) <= S i)%nat.
Proof.
  unfold window_at. rewrite length_firstn. lia.
Qed.

(** The last cell of a rolling mean is the mean of the window that ends at
    the last bar. *)
Lemma iloc_last_rolling_mean (window : nat) (min_periods : option nat) (s : Series) :
  (0 < List.length s)%nat ->
  iloc_last (rolling_mean window min_periods s)
  = Ok (window_mean (match min_periods with Some m => m | None => window end)
                    (window_at window s (List.length s - 1))).
Proof.
  intros Hpos. unfold rolling_mean.
  destruct (List.length s) as [|n] eqn:E; [lia|].
  rewrite seq_S, map_app. cbn [map]. rewrite iloc_last_app.
  cbn [Nat.add]. now replace (S n - 1)%nat with n by lia.
Qed.

(** With the default [min_periods], a series shorter than the window has
    an undefined rolling mean at its last bar. *)
Lemma iloc_last_rolling_mean_short (window : nat) (s : Series) :
  (0 < List.length s < window)%nat ->
  iloc_last (rolling_mean window None s) = Ok NaN.
Proof.
  intros [Hpos Hshort]. rewrite iloc_last_rolling_mean by exact Hpos.
  unfold window_mean.
  pose proof (observations_length (window_at window s (List.length s - 1))) as Ho.
  pose proof (window_at_length window s (List.length s - 1)) as Hw.
  destruct (Nat.leb_spec window
              (List.length (observations (window_at window s (List.length s - 1)))));
    [lia | reflexivity].
Qed.

(** ** Short windows *)

(** C9 (as the code has it).  The classifier has no insufficient-data
    outcome.  On every window of at least one bar for which the provider
    returns one cell per bar, whatever the number of bars, it returns one of
    the four regimes; on a window with fewer bars than the smoothing window
    both smoothed readings are undefined and the regime is ['sideways']. *)
Theorem identify_market_condition_short_window
    (talib : Talib) (data : DataFrame)
    (adx_window bbands_window smoothing_window : nat)
    (upperband middleband lowerband : Series) :
  let bars := List.length (Close data) in
  let regime :=
    identify_market_condition talib data adx_window bbands_window smoothing_window in
  BBANDS talib (Close data) bbands_window 2 2 0%nat
  = (upperband, middleband, lowerband) ->
  List.length (ADX talib (High data) (Low data) (Close data) adx_window) = bars ->
  List.length upperband = bars ->
  List.length middleband = bars ->
  List.length lowerband = bars ->
  (0 < bars)%nat ->
  (exists r, regime = Ok r /\
             In r ["trending and volatile"; "trending"; "volatile"; "sideways"]) /\
  ((bars < smoothing_window)%nat -> regime = Ok "sideways").
Proof.
  intros bars regime HB Hadx Hu Hm Hl Hpos. subst regime.
  unfold identify_market_condition, smoothed_adx, smoothed_bbands_width.
  rewrite HB.
  set (adx := ADX talib (High data) (Low data) (Close data) adx_window) in *.
  set (width := series_div (series_sub upperband lowerband) middleband).
  assert (Hwidth : List.length width = bars).
  { unfold width, series_div, series_sub. rewrite !series_binop_length. lia. }
  split.
  - destruct (iloc_last_nonempty (rolling_mean smoothing_window None adx))
      as [a Ha]; [rewrite rolling_mean_length; lia|].
    destruct (iloc_last_nonempty (rolling_mean smoothing_window None width))
      as [w Hw]; [rewrite rolling_mean_length; lia|].
    rewrite Ha, Hw. cbn [bind].
    destruct (fgt a (Val ADX_THRESHOLD)), (fgt w (Val BBANDS_WIDTH_THRESHOLD));
      cbn [andb]; eexists; (split; [reflexivity|]); cbn; auto.
  - intros Hshort.
    rewrite !iloc_last_rolling_mean_short by lia.
    reflexivity.
Qed.

(** * Evaluation on recorded windows *)

(** C1 on 30 bars of [quiet_uptrend]: smoothed ADX 30, smoothed width 0.04,
    regime ['trending']. *)
Lemma identify_market_condition_decision_order_witness :
  iloc_last (smoothed_adx (recorded quiet_uptrend) (flat_window 30 100) 14 5)
  = Ok (Val (150 # 5)) /\
  iloc_last (smoothed_bbands_width (recorded quiet_uptrend) (flat_window 30 100) 20 5)
  = Ok (Val (2000000000 # 50000000000)) /\
  identify_market_condition (recorded quiet_uptrend) (flat_window 30 100) 14 20 5
  = Ok "trending".
Proof.
  assert (Ha : iloc_last (smoothed_adx (recorded quiet_uptrend) (flat_window 30 100) 14 5)
               = Ok (Val (150 # 5))) by (vm_compute; reflexivity).
  assert (Hw : iloc_last (smoothed_bbands_width (recorded quiet_uptrend)
                            (flat_window 30 100) 20 5)
               = Ok (Val (2000000000 # 50000000000))) by (vm_compute; reflexivity).
  split; [exact Ha | split; [exact Hw |]].
  apply (proj1 (proj2 (identify_market_condition_decision_order _ _ _ _ _ _ _ Ha Hw))).
  split; [reflexivity | intros H; vm_compute in H; discriminate H].
Defined.

(** C2 at ['trending and volatile'], which the registry does not list. *)
Lemma select_strategy_based_on_condition_total_witness :
  select_strategy_based_on_condition "trending and volatile" = default_strategy_fn.
Proof.
  apply (proj1 (proj2 (proj2 (proj2
           (select_strategy_based_on_condition_total "trending and volatile")))));
    intros H; discriminate H.
Defined.

(** C3 on [quiet_uptrend] (ATR 0.5): the votes are sell, buy, buy and the
    result is ['hold']. *)
Lemma hybrid_unanimous_rule_witness :
  hybrid_trend_following_strategy (recorded quiet_uptrend) (flat_window 30 100)
    50 200 12 26 9 14 25 14 1
  = Ok "hold".
Proof.
  refine (proj2 (proj2 (hybrid_unanimous_rule (recorded quiet_uptrend)
                          (flat_window 30 100) 50 200 12 26 9 14 14 25 1
                          "sell" "buy" "buy" (Val 0.5) _ _ _ _ _)) _);
    try (vm_compute; reflexivity).
  intros [H _]. discriminate H.
Defined.

(** C4 on [volatile_uptrend] (ATR 2): two ['buy'] votes give ['buy']. *)
Lemma hybrid_majority_rule_witness :
  count ["sell"; "buy"; "buy"] "buy" = 2%nat /\
  hybrid_trend_following_strategy (recorded volatile_uptrend) (flat_window 30 100)
    50 200 12 26 9 14 25 14 1
  = Ok "buy".
Proof.
  split; [reflexivity|].
  refine (proj1 (hybrid_majority_rule (recorded volatile_uptrend)
                   (flat_window 30 100) 50 200 12 26 9 14 14 25 1
                   "sell" "buy" "buy" (Val 2) _ _ _ _ _) _);
    try (vm_compute; reflexivity).
  left. reflexivity.
Defined.

(** C5 on [oversold_breakdown]: ['buy'] with stop-loss 100 - 1.5 * 2. *)
Lemma volatile_market_strategy_rule_witness :
  volatile_market_strategy (recorded oversold_breakdown) (flat_window 30 100)
    14 20 2 14 70 30 1.5
  = Ok {| action := "buy"; stop_loss := Some (Val (100 - 1.5 * 2)) |}.
Proof.
  refine (proj2 (proj1 (volatile_market_strategy_rule (recorded oversold_breakdown)
                          (flat_window 30 100) 14 20 2 14
                          (flat (Val 109) (Close (flat_window 30 100)))
                          (flat (Val 105) (Close (flat_window 30 100)))
                          (flat (Val 101) (Close (flat_window 30 100)))
                          (Val 25) (Val 100) (Val 109) (Val 101) (Val 2)
                          _ _ _ _ _ _)) _);
    vm_compute; reflexivity.
Defined.

(** C6 on [overbought]: no buy trigger, RSI 80 > 70, result ['sell']. *)
Lemma sideways_market_strategy_rule_witness :
  sideways_market_strategy (recorded overbought) (flat_window 30 100) 20 14 14 3 3
  = Ok "sell".
Proof.
  refine (proj1 (proj2 (sideways_market_strategy_rule (recorded overbought)
                          (flat_window 30 100) 20 14 14 3 3
                          (flat (Val 102) (Close (flat_window 30 100)))
                          (flat (Val 100) (Close (flat_window 30 100)))
                          (flat (Val 98) (Close (flat_window 30 100)))
                          (flat (Val 50) (Close (flat_window 30 100)))
                          (flat (Val 50) (Close (flat_window 30 100)))
                          (Val 100) (Val 102) (Val 98) (Val 80) (Val 50) (Val 50)
                          _ _ _ _ _ _ _ _)) _ _);
    vm_compute; reflexivity.
Defined.

(** C6 as stated fails on [overbought_with_stochastic_cross_up]: the sell
    trigger RSI > 70 holds, yet the buy trigger (%K < 20 and %K > %D) is
    tested first and the result is ['buy']. *)
Lemma sideways_sell_trigger_returns_buy :
  iloc_last (RSI (recorded overbought_with_stochastic_cross_up)
               (Close (flat_window 30 100)) 14) = Ok (Val 80) /\
  fgt (Val 80) (Val 70) = true /\
  sideways_market_strategy (recorded overbought_with_stochastic_cross_up)
    (flat_window 30 100) 20 14 14 3 3 = Ok "buy" /\
  sideways_market_strategy (recorded overbought_with_stochastic_cross_up)
    (flat_window 30 100) 20 14 14 3 3 <> Ok "sell".
Proof.
  repeat split; try (vm_compute; reflexivity).
  vm_compute. discriminate.
Qed.

(** C7: [oversold_breakdown] is a ['buy']; with the MACD condition alone
    turned false the result is ['hold']. *)
Lemma default_strategy_full_consensus_witness :
  default_strategy (recorded oversold_breakdown) (flat_window 30 100)
    12 26 9 14 70 30 0.02 0.2 = Ok "buy" /\
  default_strategy (recorded oversold_breakdown_macd_down) (flat_window 30 100)
    12 26 9 14 70 30 0.02 0.2 = Ok "hold".
Proof.
  split.
  - refine (proj2 (proj1 (default_strategy_full_consensus
                            (recorded oversold_breakdown)
                            (flat_window 30 100) 12 26 9 14 0.02 0.2
                            (flat (Val 1) (Close (flat_window 30 100)))
                            (flat (Val 0) (Close (flat_window 30 100)))
                            (series_binop fsub
                               (flat (Val 1) (Close (flat_window 30 100)))
                               (flat (Val 0) (Close (flat_window 30 100))))
                            (Val 100) (Val 1) (Val 0) (Val 25) (Val 99)
                            _ _ _ _ _ _)) _);
      try (vm_compute; reflexivity).
    repeat split; vm_compute; reflexivity.
  - refine (proj1 (proj2 (proj2 (default_strategy_full_consensus
                                   (recorded oversold_breakdown_macd_down)
                                   (flat_window 30 100) 12 26 9 14 0.02 0.2
                                   (flat (Val (-1)) (Close (flat_window 30 100)))
                                   (flat (Val 0) (Close (flat_window 30 100)))
                                   (series_binop fsub
                                      (flat (Val (-1)) (Close (flat_window 30 100)))
                                      (flat (Val 0) (Close (flat_window 30 100))))
                                   (Val 100) (Val (-1)) (Val 0) (Val 25) (Val 99)
                                   _ _ _ _ _ _))) _ _ _);
      vm_compute; reflexivity.
Defined.

(** C8 on 250 bars flat at 100: both averages are 100 and the vote is
    ['sell']. *)
Lemma sma_signal_tie_is_sell_witness :
  (5000 # 50 == 100)%Q /\ (20000 # 200 == 100)%Q /\
  sma_signal (flat_window 250 100) 50 200 = Ok "sell".
Proof.
  split; [reflexivity | split; [reflexivity |]].
  apply (sma_signal_tie_is_sell (flat_window 250 100) 50 200 (5000 # 50) (20000 # 200));
    vm_compute; reflexivity.
Defined.

(** C9 on three bars, every indicator inside its lookback: the classifier
    answers ['sideways']. *)
Lemma identify_market_condition_short_window_witness :
  identify_market_condition (recorded inside_lookback) (flat_window 3 100) 14 20 5
  = Ok "sideways".
Proof.
  refine (proj2 (identify_market_condition_short_window (recorded inside_lookback)
                   (flat_window 3 100) 14 20 5
                   (flat NaN (Close (flat_window 3 100)))
                   (flat NaN (Close (flat_window 3 100)))
                   (flat NaN (Close (flat_window 3 100)))
                   _ _ _ _ _ _) _);
    try reflexivity; cbn; lia.
Defined.

(** C9 as stated fails: windows of 3 and of 40 bars, both shorter than 200,
    are classified and no error is raised. *)
Lemma short_window_is_classified :
  (List.length (Close (flat_window 3 100)) < 200)%nat /\
  identify_market_condition (recorded inside_lookback) (flat_window 3 100) 14 20 5
  = Ok "sideways" /\
  (List.length (Close (flat_window 40 100)) < 200)%nat /\
  identify_market_condition (recorded quiet_uptrend) (flat_window 40 100) 14 20 5
  = Ok "trending".
Proof.
  repeat split; try (vm_compute; reflexivity); cbn; lia.
Qed.

(** C10 on [volatile_uptrend]: neither evaluator holds. *)
Lemma majority_rule_never_holds_witness :
  hybrid_trend_following_strategy (recorded volatile_uptrend) (flat_window 30 100)
    50 200 12 26 9 14 25 14 1 <> Ok "hold" /\
  consensus_trend_following_strategy (recorded volatile_uptrend) (flat_window 30 100)
    50 200 12 26 9 14 25 <> Ok "hold".
Proof.
  split.
  - apply (proj1 (majority_rule_never_holds (recorded volatile_uptrend)
                    (flat_window 30 100) 50 200 12 26 9 14 14 25 1) (Val 2));
      vm_compute; reflexivity.
  - apply (proj1 (proj2 (majority_rule_never_holds (recorded volatile_uptrend)
                           (flat_window 30 100) 50 200 12 26 9 14 14 25 1))).
Defined.

(** * The decision core beyond the thresholds *)

(** ** Which regimes reach which evaluator *)



(** X2.  The value of [trading_action] by regime: the hybrid evaluator when only
    the ADX threshold is exceeded, the volatile-market evaluator (a dict)
    when only the width threshold is, the mean-reversion evaluator when
    neither is, and the default evaluator when both are. *)
Theorem trading_action_by_thresholds
    (talib : Talib) (data : DataFrame) (a w : float64) :
  iloc_last (smoothed_adx talib data 14 5) = Ok a ->
  iloc_last (smoothed_bbands_width talib data 20 5) = Ok w ->
  trading_action talib data =
  match fgt a (Val 25), fgt w (Val 2) with
  | true, true =>
      r <- default_strategy talib data 12 26 9 14 70 30 0.02 0.2 ;; Ok (PyStr r)
  | true, false =>
      r <- hybrid_trend_following_strategy talib data 50 200 12 26 9 14 25 14 1 ;;
      Ok (PyStr r)
  | false, true =>
      r <- volatile_market_strategy talib data 14 20 2 14 70 30 1.5 ;; Ok (PyDict r)
  | false, false =>
      r <- sideways_market_strategy talib data 20 14 14 3 3 ;; Ok (PyStr r)
  end.
Proof.
  intros Ha Hw. unfold trading_action, identify_market_condition.
  rewrite Ha, Hw. cbn [bind]. unfold ADX_THRESHOLD, BBANDS_WIDTH_THRESHOLD.
  destruct (fgt a (Val 25)), (fgt w (Val 2)); reflexivity.
Qed.

(** ** Undefined readings and empty windows *)

(** X3.  An undefined smoothed reading fails its threshold test: with the smoothed
    ADX undefined the regime is ['volatile'] or ['sideways'] by the width
    alone, and with the smoothed width undefined it is ['trending'] or
    ['sideways'] by the ADX alone. *)
Theorem identify_market_condition_undefined_reading
    (talib : Talib) (data : DataFrame)
    (adx_window bbands_window smoothing_window : nat) (a w : float64) :
  iloc_last (smoothed_adx talib data adx_window smoothing_window) = Ok a ->
  iloc_last (smoothed_bbands_width talib data bbands_window smoothing_window) = Ok w ->
  let regime :=
    identify_market_condition talib data adx_window bbands_window smoothing_window in
  (a = NaN ->
   regime = Ok (if fgt w (Val 2) then "volatile" else "sideways")) /\
  (w = NaN ->
   regime = Ok (if fgt a (Val 25) then "trending" else "sideways")).
Proof.
  intros Ha Hw regime. subst regime. unfold identify_market_condition.
  rewrite Ha, Hw. cbn [bind]. unfold ADX_THRESHOLD, BBANDS_WIDTH_THRESHOLD.
  split; intros ->.
  - cbn. now destruct (fgt w (Val 2)).
  - rewrite fgt_NaN_l, andb_false_r. now destruct (fgt a (Val 25)).
Qed.


(** X5.  The default evaluator holds as soon as one of its readings is undefined:
    the last close, the MACD line or its signal, the RSI or the SAR. *)
Theorem default_strategy_undefined_reading_holds
    (talib : Talib) (data : DataFrame)
    (macd_fast macd_slow macd_signalperiod rsi_period : nat)
    (rsi_overbought rsi_oversold sar_step sar_maximum : Q)
    (macd macdsignal macdhist : Series)
    (last_price m s rsi sar : float64) :
  MACD talib (Close data) macd_fast macd_slow macd_signalperiod
  = (macd, macdsignal, macdhist) ->
  iloc_last (Close data) = Ok last_price ->
  iloc_last macd = Ok m ->
  iloc_last macdsignal = Ok s ->
  iloc_last (RSI talib (Close data) rsi_period) = Ok rsi ->
  iloc_last (SAR talib (High data) (Low data) sar_step sar_maximum) = Ok sar ->
  last_price = NaN \/ m = NaN \/ s = NaN \/ rsi = NaN \/ sar = NaN ->
  default_strategy talib data macd_fast macd_slow macd_signalperiod rsi_period
    rsi_overbought rsi_oversold sar_step sar_maximum = Ok "hold".
Proof.
  intros HM Hclose Hm Hs Hrsi Hsar Hnan.
  unfold default_strategy. rewrite HM. read_latest.
  destruct Hnan as [ -> | [ -> | [ -> | [ -> | -> ] ] ] ];
    rewrite ?fgt_NaN_l, ?fgt_NaN_r, ?flt_NaN_l, ?flt_NaN_r;
    repeat match goal with
    | |- context [fgt ?x ?y] => destruct (fgt x y)
    | |- context [flt ?x ?y] => destruct (flt x y)
    end; reflexivity.
Qed.

(** X6.  The volatile-market evaluator holds, with no stop-loss, when the RSI or
    the last close is undefined, or when both bands are. *)
Theorem volatile_market_strategy_undefined_reading_holds
    (talib : Talib) (data : DataFrame)
    (atr_period bbands_period : nat) (bbands_std_dev : Q) (rsi_period : nat)
    (rsi_overbought rsi_oversold atr_multiplier : Q)
    (upperband middleband lowerband : Series)
    (rsi close upper lower atr : float64) :
  BBANDS talib (Close data) bbands_period bbands_std_dev bbands_std_dev 0%nat
  = (upperband, middleband, lowerband) ->
  iloc_last (RSI talib (Close data) rsi_period) = Ok rsi ->
  iloc_last (Close data) = Ok close ->
  iloc_last upperband = Ok upper ->
  iloc_last lowerband = Ok lower ->
  iloc_last (ATR talib (High data) (Low data) (Close data) atr_period) = Ok atr ->
  rsi = NaN \/ close = NaN \/ (upper = NaN /\ lower = NaN) ->
  volatile_market_strategy talib data atr_period bbands_period bbands_std_dev
    rsi_period rsi_overbought rsi_oversold atr_multiplier
  = Ok {| action := "hold"; stop_loss := None |}.
Proof.
  intros HB Hrsi Hclose Hup Hlo Hatr Hnan.
  unfold volatile_market_strategy. rewrite HB. read_latest.
  destruct Hnan as [ -> | [ -> | [ -> -> ] ] ];
    rewrite ?fgt_NaN_l, ?fgt_NaN_r, ?flt_NaN_l, ?flt_NaN_r;
    repeat match goal with
    | |- context [fgt ?x ?y] => destruct (fgt x y)
    | |- context [flt ?x ?y] => destruct (flt x y)
    end; reflexivity.
Qed.

(** X7.  The mean-reversion evaluator holds when the RSI and %K are undefined and
    either the last close or both bands are undefined: no trigger can fire. *)
Theorem sideways_market_strategy_undefined_readings_hold
    (talib : Talib) (data : DataFrame)
    (bbands_period rsi_period stochastic_period stochastic_slowk stochastic_slowd : nat)
    (upperband middleband lowerband slowk slowd : Series)
    (close upper lower d : float64) :
  BBANDS talib (Close data) bbands_period 2 2 0%nat
  = (upperband, middleband, lowerband) ->
  STOCH talib (High data) (Low data) (Close data)
        stochastic_period stochastic_slowk 0%nat stochastic_slowd 0%nat
  = (slowk, slowd) ->
  iloc_last (Close data) = Ok close ->
  iloc_last upperband = Ok upper ->
  iloc_last lowerband = Ok lower ->
  iloc_last (RSI talib (Close data) rsi_period) = Ok NaN ->
  iloc_last slowk = Ok NaN ->
  iloc_last slowd = Ok d ->
  close = NaN \/ (upper = NaN /\ lower = NaN) ->
  sideways_market_strategy talib data bbands_period rsi_period stochastic_period
    stochastic_slowk stochastic_slowd = Ok "hold".
Proof.
  intros HB HS Hclose Hup Hlo Hrsi Hk Hd Hnan.
  unfold sideways_market_strategy. rewrite HB, HS. read_latest.
  destruct Hnan as [ -> | [ -> -> ] ];
    rewrite ?fgt_NaN_l, ?fgt_NaN_r, ?flt_NaN_l, ?flt_NaN_r; reflexivity.
Qed.

(** ** The stop-loss of the volatile-market evaluator *)

(** X8.  With a defined close [c] and a defined, non-negative ATR [a], a ['buy']
    carries the stop-loss [c - multiplier * a], not above the close, and a
    ['sell'] carries [c + multiplier * a], not below it, for every
    non-negative multiplier.  With an undefined ATR a ['buy'] or ['sell'] is
    still returned and its stop-loss is NaN. *)
Theorem volatile_market_strategy_stop_loss_side
    (talib : Talib) (data : DataFrame)
    (atr_period bbands_period : nat) (bbands_std_dev : Q) (rsi_period : nat)
    (rsi_overbought rsi_oversold atr_multiplier : Q)
    (upperband middleband lowerband : Series)
    (rsi upper lower atr : float64) (c : Q) (d : SignalDict) :
  BBANDS talib (Close data) bbands_period bbands_std_dev bbands_std_dev 0%nat
  = (upperband, middleband, lowerband) ->
  iloc_last (RSI talib (Close data) rsi_period) = Ok rsi ->
  iloc_last (Close data) = Ok (Val c) ->
  iloc_last upperband = Ok upper ->
  iloc_last lowerband = Ok lower ->
  iloc_last (ATR talib (High data) (Low data) (Close data) atr_period) = Ok atr ->
  (0 <= atr_multiplier)%Q ->
  volatile_market_strategy talib data atr_period bbands_period bbands_std_dev
    rsi_period rsi_overbought rsi_oversold atr_multiplier = Ok d ->
  (forall a, atr = Val a -> (0 <= a)%Q ->
     (action d = "buy" ->
      stop_loss d = Some (Val (c - atr_multiplier * a)) /\
      (c - atr_multiplier * a <= c)%Q) /\
     (action d = "sell" ->
      stop_loss d = Some (Val (c + atr_multiplier * a)) /\
      (c <= c + atr_multiplier * a)%Q)) /\
  (atr = NaN -> action d <> "hold" -> stop_loss d = Some NaN).
Proof.
  intros HB Hrsi Hclose Hup Hlo Hatr Hmul.
  unfold volatile_market_strategy. rewrite HB. read_latest.
  assert (Hprod : forall a, (0 <= a)%Q -> (0 <= atr_multiplier * a)%Q).
  { intros a Ha. apply Qmult_le_0_compat; assumption. }
  destruct (flt rsi (Val rsi_oversold) && flt (Val c) lower);
    [|destruct (fgt rsi (Val rsi_overbought) && fgt (Val c) upper)];
    intros Hd; injection Hd as <-; cbn [action stop_loss];
    (split; [intros a -> Ha; specialize (Hprod a Ha);
             split; intros Hact; try discriminate Hact;
             (split; [reflexivity | lra])
            | intros -> Hact; try reflexivity; now contradiction Hact]).
Qed.

(** ** What the evaluators return *)

(** X9.  Every evaluator answers ['buy'], ['sell'] or ['hold'] and nothing else;
    the dict of the volatile-market evaluator carries a stop-loss exactly
    when its action is not ['hold']. *)
Theorem evaluators_return_buy_sell_or_hold (talib : Talib) (data : DataFrame) :
  let signal (v : string) := v = "buy" \/ v = "sell" \/ v = "hold" in
  (forall bbands_period rsi_period stochastic_period slowk slowd v,
      sideways_market_strategy talib data bbands_period rsi_period stochastic_period
        slowk slowd = Ok v -> signal v) /\
  (forall short long fast slow signalperiod adx_window adx_threshold atr_window
          volatility_threshold v,
      hybrid_trend_following_strategy talib data short long fast slow signalperiod
        adx_window adx_threshold atr_window volatility_threshold = Ok v -> signal v) /\
  (forall short long fast slow signalperiod adx_window adx_threshold v,
      consensus_trend_following_strategy talib data short long fast slow signalperiod
        adx_window adx_threshold = Ok v -> signal v) /\
  (forall fast slow signalperiod rsi_period overbought oversold step maximum v,
      default_strategy talib data fast slow signalperiod rsi_period overbought
        oversold step maximum = Ok v -> signal v) /\
  (forall atr_period bbands_period std_dev rsi_period overbought oversold multiplier d,
      volatile_market_strategy talib data atr_period bbands_period std_dev rsi_period
        overbought oversold multiplier = Ok d ->
      signal (action d) /\ (stop_loss d = None <-> action d = "hold")).
Proof.
  intros signal. subst signal. cbv beta.
  split; [|split; [|split; [|split]]]; intros *.
  - unfold sideways_market_strategy.
    destruct (BBANDS _ _ _ _ _ _) as [[u m] l]. destruct (STOCH _ _ _ _ _ _ _ _ _).
    destruct (or_else _ _) as [[|]|e]; cbn [bind]; try discriminate;
      [intros H; injection H as <-; auto|].
    destruct (or_else _ _) as [[|]|e]; cbn [bind]; try discriminate;
      intros H; injection H as <-; auto.
  - unfold hybrid_trend_following_strategy.
    destruct (sma_signal _ _ _) as [sv|e]; cbn [bind]; [|discriminate].
    destruct (macd_signal _ _ _ _ _) as [mv|e]; cbn [bind]; [|discriminate].
    destruct (adx_signal _ _ _ _) as [av|e]; cbn [bind]; [|discriminate].
    destruct (iloc_last _) as [atr|e]; cbn [bind]; [|discriminate].
    repeat match goal with |- context [if ?b then _ else _] => destruct b end;
      intros H; injection H as <-; auto.
  - unfold consensus_trend_following_strategy.
    destruct (sma_signal _ _ _) as [sv|e]; cbn [bind]; [|discriminate].
    destruct (macd_signal _ _ _ _ _) as [mv|e]; cbn [bind]; [|discriminate].
    destruct (adx_signal _ _ _ _) as [av|e]; cbn [bind]; [|discriminate].
    repeat match goal with |- context [if ?b then _ else _] => destruct b end;
      intros H; injection H as <-; auto.
  - unfold default_strategy. destruct (MACD _ _ _ _ _) as [[m s] h].
    repeat (match goal with
            | |- context [bind ?c _] => destruct c as [?|?]; cbn [bind]
            end; try discriminate).
    repeat match goal with |- context [if ?b then _ else _] => destruct b end;
      intros H; injection H as <-; auto.
  - unfold volatile_market_strategy. destruct (BBANDS _ _ _ _ _ _) as [[u m] l].
    repeat (match goal with
            | |- context [bind ?c _] => destruct c as [?|?]; cbn [bind]
            end; try discriminate);
    repeat match goal with |- context [if ?b then _ else _] => destruct b end;
      cbn [bind]; intros H; try discriminate H;
      injection H as <-; cbn [action stop_loss];
      (split; [auto | split; intros H; (reflexivity || discriminate H)]).
Qed.

(** ** The moving averages on partial and flat windows *)

Lemma fgt_irrefl (a : float64) : fgt a a = false.
Proof.
  destruct a as [|x]; [reflexivity|]. apply fgt_Val_false, Qlt_irrefl.
Qed.


(** A window at least as long as the series is the whole series at the last
    bar. *)
Lemma window_at_whole (window : nat) (s : Series) :
  (0 < List.length s <= window)%nat ->
  window_at window s (List.length s - 1) = s.
Proof.
  intros [Hpos Hle]. unfold window_at.
  replace (S (List.length s - 1)) with (List.length s) by lia.
  replace (List.length s - window)%nat with 0%nat by lia.
  rewrite skipn_0. apply firstn_all2. lia.
Qed.

Lemma iloc_last_inv {A : Type} (s : list A) (x : A) :
  iloc_last s = Ok x -> exists s', s = (s' ++ [x])%list.
Proof.
  induction s as [|y s IH]; cbn [iloc_last]; [discriminate|].
  destruct s as [|z s].
  - intros H. injection H as <-. now exists [].
  - intros H. destruct (IH H) as [s' ->]. now exists (y :: s').
Qed.

Lemma observations_app (a b : Series) :
  observations (a ++ b)%list = (observations a ++ observations b)%list.
Proof.
  induction a as [|[|q] a IH]; cbn [observations app]; [reflexivity|exact IH|].
  now rewrite IH.
Qed.

(** The window that ends at the last bar contains the last bar. *)
Lemma window_at_last (window : nat) (s : Series) (x : float64) :
  (0 < window)%nat ->
  exists w', window_at window (s ++ [x])%list (List.length (s ++ [x])%list - 1)
             = (w' ++ [x])%list.
Proof.
  intros Hpos. unfold window_at. rewrite length_app. cbn [List.length].
  replace (S (List.length s + 1 - 1)) with (List.length s + 1)%nat by lia.
  rewrite skipn_app.
  replace (List.length s + 1 - window - List.length s)%nat with 0%nat by lia.
  rewrite skipn_0. exists (skipn (List.length s + 1 - window) s).
  apply firstn_all2. rewrite length_app, length_skipn. cbn [List.length]. lia.
Qed.

(** X10.  With [min_periods=1] the average at the last bar is defined as soon as
    the last close is: the 50-bar and 200-bar SMAs are computed on whatever
    part of their window exists. *)
Theorem rolling_mean_min_periods_1_defined (window : nat) (s : Series) (c : Q) :
  (0 < window)%nat ->
  iloc_last s = Ok (Val c) ->
  exists m, iloc_last (rolling_mean window (Some 1%nat) s) = Ok (Val m).
Proof.
  intros Hpos Hlast. destruct (iloc_last_inv _ _ Hlast) as [s' ->].
  rewrite iloc_last_rolling_mean by (rewrite length_app; cbn; lia).
  destruct (window_at_last window s' (Val c) Hpos) as [w' ->].
  unfold window_mean. rewrite observations_app. cbn [observations].
  rewrite length_app. cbn [List.length].
  destruct (Nat.leb_spec 1 (List.length (observations w') + 1)); [|lia].
  destruct (Nat.ltb_spec 0 (List.length (observations w') + 1)); [|lia].
  cbn [andb]. eexists. reflexivity.
Qed.

(** X11.  On a window with no more bars than either SMA window, both averages are
    taken over the same bars, so the SMA vote is ['sell']. *)
Theorem sma_signal_short_window_is_sell
    (data : DataFrame) (sma_short_window sma_long_window : nat) :
  (0 < List.length (Close data) <= sma_short_window)%nat ->
  (List.length (Close data) <= sma_long_window)%nat ->
  sma_signal data sma_short_window sma_long_window = Ok "sell".
Proof.
  intros [Hpos Hshort] Hlong. unfold sma_signal.
  rewrite !iloc_last_rolling_mean by exact Hpos.
  rewrite !window_at_whole by lia.
  unfold last_gt. cbn [bind]. now rewrite fgt_irrefl.
Qed.






(** ** The trend evaluators next to each other *)

(** Evaluate a voting rule on a list of known votes. *)
Ltac run_rule :=
  repeat match goal with
  | |- context [two_of_three ?l] =>
      let v := eval vm_compute in (two_of_three l) in
      change (two_of_three l) with v
  | |- context [three_of_three ?l] =>
      let v := eval vm_compute in (three_of_three l) in
      change (three_of_three l) with v
  end.

Ltac each_vote Hs Hm Ha :=
  destruct (sma_signal_binary _ _ _ _ Hs);
  destruct (macd_signal_binary _ _ _ _ _ _ Hm);
  destruct (adx_signal_binary _ _ _ _ _ Ha);
  subst; run_rule.

Section TrendEvaluators.

Variables (talib : Talib) (data : DataFrame).
Variables (sma_short_window sma_long_window : nat).
Variables (macd_fast macd_slow macd_signalperiod adx_window atr_window : nat).
Variables (adx_threshold volatility_threshold : Q).

Let hybrid : result string :=
  hybrid_trend_following_strategy talib data sma_short_window sma_long_window
    macd_fast macd_slow macd_signalperiod adx_window adx_threshold atr_window
    volatility_threshold.

Let consensus : result string :=
  consensus_trend_following_strategy talib data sma_short_window sma_long_window
    macd_fast macd_slow macd_signalperiod adx_window adx_threshold.

(** The hybrid evaluator returned a value: its three votes and the ATR cell
    exist. *)
Lemma hybrid_Ok_inv (v : string) :
  hybrid = Ok v ->
  exists sv mv av atr,
    sma_signal data sma_short_window sma_long_window = Ok sv /\
    macd_signal talib data macd_fast macd_slow macd_signalperiod = Ok mv /\
    adx_signal talib data adx_window adx_threshold = Ok av /\
    iloc_last (ATR talib (High data) (Low data) (Close data) atr_window) = Ok atr.
Proof.
  unfold hybrid, hybrid_trend_following_strategy.
  destruct (sma_signal _ _ _) as [sv|e]; cbn [bind]; [|discriminate].
  destruct (macd_signal _ _ _ _ _) as [mv|e]; cbn [bind]; [|discriminate].
  destruct (adx_signal _ _ _ _) as [av|e]; cbn [bind]; [|discriminate].
  destruct (iloc_last _) as [atr|e]; cbn [bind]; [|discriminate].
  intros _. now exists sv, mv, av, atr.
Qed.

(** X13.  The hybrid evaluator is the consensus evaluator once the ATR exceeds
    the volatility threshold, and below the threshold it only ever withholds:
    whenever it returns ['buy'] or ['sell'], whatever the ATR, the consensus
    evaluator returns the same signal on the same window. *)
Theorem hybrid_refines_consensus :
  (forall atr,
      iloc_last (ATR talib (High data) (Low data) (Close data) atr_window) = Ok atr ->
      fgt atr (Val volatility_threshold) = true ->
      hybrid = consensus) /\
  (forall v, hybrid = Ok v -> v <> "hold" -> consensus = Ok v).
Proof.
  split.
  - intros atr Hatr Hvol.
    unfold hybrid, consensus, hybrid_trend_following_strategy,
      consensus_trend_following_strategy.
    destruct (sma_signal _ _ _) as [sv|e]; cbn [bind]; [|reflexivity].
    destruct (macd_signal _ _ _ _ _) as [mv|e]; cbn [bind]; [|reflexivity].
    destruct (adx_signal _ _ _ _) as [av|e]; cbn [bind]; [|reflexivity].
    rewrite Hatr. cbn [bind]. now rewrite Hvol.
  - intros v Hv Hnot.
    destruct (hybrid_Ok_inv v Hv) as (sv & mv & av & atr & Hs & Hm & Ha & Hatr).
    revert Hv. unfold hybrid, consensus.
    rewrite (hybrid_by_votes _ _ _ _ _ _ _ _ _ _ _ sv mv av atr Hs Hm Ha Hatr).
    rewrite (consensus_by_votes _ _ _ _ _ _ _ _ _ sv mv av Hs Hm Ha).
    destruct (fgt atr (Val volatility_threshold)); [now intros ->|].
    each_vote Hs Hm Ha; intros H; injection H as <-;
      reflexivity || now contradiction Hnot.
Qed.

(** X14.  Inside the MACD and ADX lookbacks both votes are ['sell']: the consensus
    evaluator returns ['sell'], and the hybrid evaluator returns ['sell'] when
    the ATR exceeds the threshold or the SMA vote is ['sell'] too, and
    ['hold'] otherwise.  Neither can return ['buy']. *)
Theorem trend_evaluators_inside_lookback
    (macd macdsignal macdhist : Series) (sv : string) (m s atr : float64) :
  sma_signal data sma_short_window sma_long_window = Ok sv ->
  MACD talib (Close data) macd_fast macd_slow macd_signalperiod
  = (macd, macdsignal, macdhist) ->
  iloc_last macd = Ok m ->
  iloc_last macdsignal = Ok s ->
  m = NaN \/ s = NaN ->
  iloc_last (ADX talib (High data) (Low data) (Close data) adx_window) = Ok NaN ->
  iloc_last (ATR talib (High data) (Low data) (Close data) atr_window) = Ok atr ->
  consensus = Ok "sell" /\
  hybrid = Ok (if fgt atr (Val volatility_threshold) then "sell"
               else if String.eqb sv "sell" then "sell" else "hold") /\
  hybrid <> Ok "buy".
Proof.
  intros Hs HM Hm Hsig Hnan Hadx Hatr.
  assert (Hmv : macd_signal talib data macd_fast macd_slow macd_signalperiod
                = Ok "sell").
  { unfold macd_signal. rewrite HM. read_latest.
    destruct Hnan as [-> | ->]; now rewrite ?fgt_NaN_l, ?fgt_NaN_r. }
  assert (Hav : adx_signal talib data adx_window adx_threshold = Ok "sell").
  { unfold adx_signal. now read_latest. }
  unfold consensus, hybrid.
  rewrite (consensus_by_votes _ _ _ _ _ _ _ _ _ sv "sell" "sell" Hs Hmv Hav).
  rewrite (hybrid_by_votes _ _ _ _ _ _ _ _ _ _ _ sv "sell" "sell" atr Hs Hmv Hav Hatr).
  destruct (sma_signal_binary _ _ _ _ Hs); subst sv;
    destruct (fgt atr (Val volatility_threshold)); cbn [String.eqb];
    run_rule; repeat split; try reflexivity; discriminate.
Qed.

End TrendEvaluators.

(** ** The buy triggers across evaluators *)

(** X15.  Every ['buy'] of the volatile-market evaluator is a ['buy'] of the
    mean-reversion evaluator on the same window: close below the lower band
    is the first trigger the latter tests. *)
Theorem volatile_buy_is_sideways_buy
    (talib : Talib) (data : DataFrame)
    (atr_period bbands_period rsi_period : nat)
    (rsi_overbought rsi_oversold atr_multiplier : Q)
    (stochastic_period stochastic_slowk stochastic_slowd : nat) (d : SignalDict) :
  volatile_market_strategy talib data atr_period bbands_period 2 rsi_period
    rsi_overbought rsi_oversold atr_multiplier = Ok d ->
  action d = "buy" ->
  sideways_market_strategy talib data bbands_period rsi_period stochastic_period
    stochastic_slowk stochastic_slowd = Ok "buy".
Proof.
  unfold volatile_market_strategy, sideways_market_strategy.
  destruct (BBANDS _ _ _ _ _ _) as [[u m] l].
  destruct (STOCH _ _ _ _ _ _ _ _ _) as [k kd].
  destruct (last_gt (iloc_last (RSI _ _ _)) _) as [ob|e]; cbn [bind]; [|discriminate].
  destruct (last_lt (iloc_last (RSI _ _ _)) _) as [os|e]; cbn [bind]; [|discriminate].
  destruct (last_gt (iloc_last (Close data)) (iloc_last u)) as [above|e];
    cbn [bind]; [|discriminate].
  destruct (last_lt (iloc_last (Close data)) (iloc_last l)) as [below|e] eqn:Hbelow;
    cbn [bind]; [|discriminate].
  destruct (iloc_last (ATR _ _ _ _ _)) as [atr|e]; cbn [bind]; [|discriminate].
  destruct os, below; cbn [andb];
    try (destruct (ob && above);
         destruct (iloc_last (Close data)); cbn [bind];
         intros H; try discriminate H; injection H as <-; discriminate).
  intros _ _. unfold or_else. cbn [bind]. reflexivity.
Qed.

(** * The trading loop *)

(** ** Trade sizing *)


(** X17.  A balance that cannot be read never becomes a trade amount: when the
    client raises, answers [None], answers a dict without ['free'], or the
    amount does not parse, [calculate_trade_amount] raises after the one balance
    request. *)
Theorem calculate_trade_amount_unreadable_balance
    (py : Builtins) (client : Client) (asset : string) (risk_percentage : Q) :
  let sizing := calculate_trade_amount py client asset risk_percentage in
  (forall e, get_asset_balance client asset = Raised e ->
             sizing = ([BalanceRequest asset], Raised e)) /\
  (get_asset_balance client asset = Returned None ->
   sizing = ([BalanceRequest asset], Raised (TypeError NotSubscriptable))) /\
  (forall balance, get_asset_balance client asset = Returned (Some balance) ->
     (forall v, getitem balance "free" <> Returned v) ->
     sizing = ([BalanceRequest asset], Raised (KeyError "free"))) /\
  (forall balance free e,
     get_asset_balance client asset = Returned (Some balance) ->
     getitem balance "free" = Returned free ->
     float_of_str py free = Raised e ->
     sizing = ([BalanceRequest asset], Raised e)).
Proof.
  assert (Hget : forall d key, (exists v, getitem d key = Returned v) \/
                               getitem d key = Raised (KeyError key)).
  { intros d key. induction d as [|[k v] d IH]; cbn [getitem]; [now right|].
    destruct (String.eqb k key); [left; now exists v | exact IH]. }
  intros sizing. subst sizing.
  unfold calculate_trade_amount, get_balance, call, of_outcome.
  repeat split.
  - intros e ->. reflexivity.
  - intros ->. reflexivity.
  - intros balance -> Hno. cbn [io_bind].
    destruct (Hget balance "free") as [[v Hv] | ->]; [now destruct (Hno v)|].
    reflexivity.
  - intros balance free e -> Hfree Hfloat. cbn [io_bind]. rewrite Hfree.
    cbn [io_bind app]. now rewrite Hfloat.
Qed.

(** ** Order submission *)

(** X18.  [execute_trade] converts the amount before its [try] block: a failed
    conversion escapes with no order sent.  Past the conversion it never
    raises.  A side that is ['buy'] (in any letter case) sends one market buy
    of the converted quantity and returns the order, or [None] after printing
    the error if the client raised; likewise for ['sell'].  Any other side
    sends nothing, prints the [ValueError] and returns [None]. *)
Theorem execute_trade_contract
    (py : Builtins) (client : Client) (symbol side : string) (trade_amount : float64) :
  let run := execute_trade py client symbol side trade_amount in
  (forall e, quantize py trade_amount = Raised e -> run = ([], Raised e)) /\
  (forall q, quantize py trade_amount = Returned q ->
     (exists order_result, snd run = Returned order_result) /\
     (lower side = "buy" ->
      orders (fst run) = [MarketBuy symbol q] /\
      snd run = Returned (match order_market_buy client symbol q with
                          | Returned order => Some order
                          | Raised _ => None
                          end)) /\
     (lower side = "sell" ->
      orders (fst run) = [MarketSell symbol q] /\
      snd run = Returned (match order_market_sell client symbol q with
                          | Returned order => Some order
                          | Raised _ => None
                          end)) /\
     (lower side <> "buy" -> lower side <> "sell" ->
      run = ([Print (ErrorLine (ValueError "Trade side must be 'buy' or 'sell'"))],
             Returned None))).
Proof.
  intros run. subst run. unfold execute_trade, of_outcome. split.
  - intros e ->. reflexivity.
  - intros q ->. cbn [io_bind].
    destruct (String.eqb_spec (lower side) "buy") as [Hbuy|Hbuy];
      [|destruct (String.eqb_spec (lower side) "sell") as [Hsell|Hsell]].
    + unfold call. destruct (order_market_buy client symbol q) as [o|e]; cbn;
        (split; [now eexists|]);
        (split; [intros _; split; reflexivity|]);
        (split; [intros Hs; rewrite Hbuy in Hs; discriminate Hs|]);
        intros Hn; now destruct Hn.
    + unfold call. destruct (order_market_sell client symbol q) as [o|e]; cbn;
        (split; [now eexists|]);
        (split; [intros Hb; now destruct Hbuy|]);
        (split; [intros _; split; reflexivity|]);
        intros _ Hn; now destruct Hn.
    + cbn. split; [now eexists|].
      split; [intros Hb; now destruct Hbuy|].
      split; [intros Hs; now destruct Hsell|].
      reflexivity.
Qed.

(** ** One cycle *)

Lemma calculate_trade_amount_trace
    (py : Builtins) (client : Client) (asset : string) (risk_percentage : Q) :
  fst (calculate_trade_amount py client asset risk_percentage) = [BalanceRequest asset].
Proof.
  unfold calculate_trade_amount, get_balance, call, of_outcome.
  destruct (get_asset_balance client asset) as [[d|]|e]; cbn [io_bind]; try reflexivity.
  destruct (getitem d "free") as [free|e]; cbn [io_bind app]; [|reflexivity].
  destruct (float_of_str py free); reflexivity.
Qed.

Lemma execute_trade_orders
    (py : Builtins) (client : Client) (symbol side : string) (trade_amount : float64) :
  orders (fst (execute_trade py client symbol side trade_amount)) =
  match quantize py trade_amount with
  | Raised _ => []
  | Returned q =>
      if String.eqb (lower side) "buy" then [MarketBuy symbol q]
      else if String.eqb (lower side) "sell" then [MarketSell symbol q]
      else []
  end.
Proof.
  unfold execute_trade, of_outcome.
  destruct (quantize py trade_amount) as [q|e]; cbn [io_bind]; [|reflexivity].
  destruct (String.eqb (lower side) "buy").
  - unfold call. now destruct (order_market_buy client symbol q).
  - destruct (String.eqb (lower side) "sell"); [|reflexivity].
    unfold call. now destruct (order_market_sell client symbol q).
Qed.

Lemma io_bind_trace {A B : Type} (c : io A) (k : A -> io B) :
  fst (io_bind c k) =
  (fst c ++ match snd c with
            | Returned a => fst (k a)
            | Raised _ => []
            end)%list.
Proof.
  destruct c as [t [a|e]]; cbn [io_bind fst snd].
  - now destruct (k a).
  - now rewrite app_nil_r.
Qed.

Lemma orders_app (a b : list Event) : orders (a ++ b)%list = (orders a ++ orders b)%list.
Proof. apply filter_app. Qed.

(** The orders of a cycle are those of its one call to [execute_trade]. *)
Lemma trading_cycle_orders
    (py : Builtins) (talib : Talib) (client : Client)
    (symbol : string) (risk_percentage : Q) (data : DataFrame) :
  orders (fst (trading_cycle py talib client symbol risk_percentage data)) =
  match trading_action talib data with
  | Ok (PyStr side) =>
      if String.eqb side "buy" || String.eqb side "sell" then
        match snd (calculate_trade_amount py client "USDT" risk_percentage) with
        | Returned trade_amount =>
            orders (fst (execute_trade py client symbol side trade_amount))
        | Raised _ => []
        end
      else []
  | _ => []
  end.
Proof.
  unfold trading_cycle, trading_action.
  destruct (identify_market_condition talib data 14 20 5) as [mc|e]; [|reflexivity].
  cbn [of_result bind io_ret io_bind emit app].
  destruct (select_strategy_based_on_condition mc talib data) as [[side|d]|e];
    cbn [of_result io_ret raise io_bind emit app]; try reflexivity.
  destruct (String.eqb side "buy" || String.eqb side "sell"); [|reflexivity].
  pose proof (calculate_trade_amount_trace py client "USDT" risk_percentage) as Ht.
  destruct (calculate_trade_amount py client "USDT" risk_percentage)
    as [t [trade_amount|e]]; cbn [fst snd] in *; subst t;
    cbn [io_bind emit app]; [|reflexivity].
  destruct (execute_trade py client symbol side trade_amount) as [t [order|e]];
    cbn [io_bind emit app fst snd].
  - unfold orders. cbn [filter is_order]. rewrite filter_app. cbn [filter is_order].
    now rewrite app_nil_r.
  - reflexivity.
Qed.

(** X19.  A cycle sends at most one order.  When it sends one, the evaluator the
    registry selected returned the str ['buy'] or ['sell'], the balance was
    read and converted, and the order is a market order of that side, on the
    symbol of the loop, for the converted percentage of the USDT balance. *)
Theorem trading_cycle_at_most_one_order
    (py : Builtins) (talib : Talib) (client : Client)
    (symbol : string) (risk_percentage : Q) (data : DataFrame) :
  let trace := fst (trading_cycle py talib client symbol risk_percentage data) in
  orders trace = [] \/
  exists side trade_amount q,
    trading_action talib data = Ok (PyStr side) /\
    snd (calculate_trade_amount py client "USDT" risk_percentage)
    = Returned trade_amount /\
    quantize py trade_amount = Returned q /\
    ((side = "buy" /\ orders trace = [MarketBuy symbol q]) \/
     (side = "sell" /\ orders trace = [MarketSell symbol q])).
Proof.
  intros trace. subst trace. rewrite trading_cycle_orders.
  destruct (trading_action talib data) as [[side|d]|e]; try (now left).
  destruct (String.eqb_spec side "buy") as [Hbuy|Hbuy];
    [|destruct (String.eqb_spec side "sell") as [Hsell|Hsell]];
    cbn [orb]; try (now left);
    (destruct (snd (calculate_trade_amount py client "USDT" risk_percentage))
       as [trade_amount|e]; [|now left]);
    rewrite execute_trade_orders;
    (destruct (quantize py trade_amount) as [q|e] eqn:Hq; [|now left]);
    right; exists side, trade_amount, q; subst side;
    (split; [reflexivity|]); (split; [reflexivity|]); (split; [exact Hq|]);
    [left | right]; split; reflexivity.
Qed.

(** X20.  The ['volatile'] regime never trades.  The volatile-market evaluator
    returns a dict, which is not in [['buy', 'sell']]: whatever its action and
    stop-loss, the cycle prints the regime and ['Holding position'] and asks
    the exchange for nothing. *)
Theorem trading_cycle_volatile_never_trades
    (py : Builtins) (talib : Talib) (client : Client)
    (symbol : string) (risk_percentage : Q) (data : DataFrame) (d : SignalDict) :
  identify_market_condition talib data 14 20 5 = Ok "volatile" ->
  volatile_market_strategy talib data 14 20 2 14 70 30 1.5 = Ok d ->
  trading_cycle py talib client symbol risk_percentage data
  = ([Print (MarketConditionLine symbol "volatile"); Print HoldingLine], Returned tt).
Proof.
  intros Hregime Hsignal. unfold trading_cycle. rewrite Hregime.
  cbn [of_result io_ret io_bind emit app select_strategy_based_on_condition].
  change (select_strategy_based_on_condition "volatile")
    with volatile_market_strategy_fn.
  unfold volatile_market_strategy_fn. rewrite Hsignal. reflexivity.
Qed.

(** X21.  A signal other than the str ['buy'] or ['sell'] is a held position: the
    cycle prints the regime and ['Holding position'] and sends nothing. *)
Theorem trading_cycle_holds
    (py : Builtins) (talib : Talib) (client : Client)
    (symbol : string) (risk_percentage : Q) (data : DataFrame)
    (market_condition : string) (signal : PyValue) :
  identify_market_condition talib data 14 20 5 = Ok market_condition ->
  select_strategy_based_on_condition market_condition talib data = Ok signal ->
  signal <> PyStr "buy" ->
  signal <> PyStr "sell" ->
  trading_cycle py talib client symbol risk_percentage data
  = ([Print (MarketConditionLine symbol market_condition); Print HoldingLine],
     Returned tt).
Proof.
  intros Hregime Hsignal Hbuy Hsell. unfold trading_cycle. rewrite Hregime.
  cbn [of_result io_ret io_bind emit app]. rewrite Hsignal.
  cbn [of_result io_ret io_bind emit app].
  destruct signal as [side|d]; [|reflexivity].
  destruct (String.eqb_spec side "buy"); [subst; now destruct Hbuy|].
  destruct (String.eqb_spec side "sell"); [subst; now destruct Hsell|].
  reflexivity.
Qed.

(** ** The loop *)

(** The binding rules on the parameters of [fetch_binance_data]: called with
    the symbol alone and [interval] by keyword, the call binds, and
    [lookback] takes its default. *)
Lemma fetch_binance_data_binds_symbol_first (symbol interval : string) :
  bind_arguments "fetch_binance_data" fetch_binance_data_parameters
    [Str symbol] [("interval", Str interval)]
  = Returned [("symbol", Str symbol); ("interval", Str interval);
              ("lookback", Str "1 day")].
Proof. reflexivity. Qed.

Lemma bind_positional_names {V : Type} (params : list (Formal V)) (positional : list V) :
  names (fst (fst (bind_positional params positional)))
  = map parameter_name (firstn (List.length positional) params).
Proof.
  revert positional. induction params as [|p params IH]; intros [|v positional];
    try reflexivity.
  cbn [bind_positional List.length firstn map].
  specialize (IH positional).
  destruct (bind_positional params positional) as [[bound rest] extra].
  cbn [fst names map] in *. now rewrite <- IH.
Qed.

(** A keyword argument that names a parameter already filled by a
    positional argument is a [TypeError], whatever the function and the
    values. *)
Lemma bind_arguments_multiple_values {V : Type}
    (function : string) (params : list (Formal V)) (positional : list V)
    (k : string) (w : V) (keywords : list (string * V)) :
  In k (map parameter_name (firstn (List.length positional) params)) ->
  bind_arguments function params positional ((k, w) :: keywords)
  = Raised (TypeError (MultipleValues function k)).
Proof.
  intros Hin. unfold bind_arguments.
  pose proof (bind_positional_names params positional) as Hnames.
  destruct (bind_positional params positional) as [[bound rest] extra].
  cbn [fst] in Hnames. cbn [bind_keywords].
  assert (Hparam : is_parameter params k = true).
  { unfold is_parameter. apply existsb_exists.
    apply in_map_iff in Hin as (p & Hp & Hin). exists p. split.
    - rewrite <- (firstn_skipn (List.length positional) params).
      apply in_or_app. now left.
    - rewrite Hp. apply String.eqb_refl. }
  rewrite Hparam. cbn [negb].
  assert (Hbound : existsb (String.eqb k) (names bound) = true).
  { apply existsb_exists. exists k. split; [now rewrite Hnames | apply String.eqb_refl]. }
  now rewrite Hbound.
Qed.

Section MainTradingLoopRuns.

Variable Frame : Type.
Variable fetch_binance_data_body : nat -> list (string * PyObject) -> io Frame.
Variable rest_of_try_block : nat -> Frame -> io unit.

(** X22.  The call of line 300 passes the client where the symbol is expected and
    the symbol where the interval is, then [interval] again by keyword.
    Every pass of the loop therefore ends in the [TypeError] of the call:
    it prints the error and sleeps, and neither the body of
    [fetch_binance_data] nor the rest of the [try] block runs.  The loop
    sends no order and asks for no balance, however long it runs. *)
Theorem main_trading_loop_never_fetches
    (n : nat) (symbol interval : string) (sleep_time : Q) :
  let trace :=
    main_trading_loop Frame fetch_binance_data_body rest_of_try_block
      n symbol interval sleep_time in
  trace
  = concat (repeat
              [Print (ErrorLine
                        (TypeError (MultipleValues "fetch_binance_data" "interval")));
               Sleep sleep_time] n) /\
  orders trace = [] /\
  ~ In (BalanceRequest "USDT") trace.
Proof.
  intros trace. subst trace.
  assert (Htrace :
    main_trading_loop Frame fetch_binance_data_body rest_of_try_block
      n symbol interval sleep_time
    = concat (repeat
                [Print (ErrorLine
                          (TypeError (MultipleValues "fetch_binance_data" "interval")));
                 Sleep sleep_time] n)).
  { induction n as [|k IH]; [reflexivity|].
    cbn [main_trading_loop]. rewrite IH.
    replace (S k) with (k + 1)%nat by lia.
    rewrite repeat_app, concat_app. cbn [repeat concat]. rewrite app_nil_r.
    reflexivity. }
  rewrite Htrace. clear Htrace. split; [reflexivity|].
  induction n as [|k [IHo IHb]]; [split; [reflexivity | intros []]|].
  cbn [repeat concat app]. split.
  - exact IHo.
  - intros [H | [H | H]]; [discriminate H | discriminate H | exact (IHb H)].
Qed.

End MainTradingLoopRuns.

(** * The further properties on recorded windows *)


(** On [quiet_uptrend] the hybrid evaluator is run and holds. *)
Lemma trading_action_by_thresholds_witness :
  trading_action (recorded quiet_uptrend) (flat_window 30 100) = Ok (PyStr "hold").
Proof.
  rewrite (trading_action_by_thresholds (recorded quiet_uptrend) (flat_window 30 100)
             (Val (150 # 5)) (Val (2000000000 # 50000000000))
             ltac:(vm_compute; reflexivity) ltac:(vm_compute; reflexivity)).
  vm_compute. reflexivity.
Defined.

(** Three bars inside every lookback: both smoothed readings are NaN. *)
Lemma identify_market_condition_undefined_reading_witness :
  identify_market_condition (recorded inside_lookback) (flat_window 3 100) 14 20 5
  = Ok "sideways".
Proof.
  exact (proj1 (identify_market_condition_undefined_reading
                  (recorded inside_lookback) (flat_window 3 100) 14 20 5 NaN NaN
                  ltac:(vm_compute; reflexivity) ltac:(vm_compute; reflexivity))
               eq_refl).
Defined.


Lemma default_strategy_undefined_reading_holds_witness :
  default_strategy (recorded inside_lookback) (flat_window 30 100)
    12 26 9 14 70 30 0.02 0.2 = Ok "hold".
Proof.
  apply (default_strategy_undefined_reading_holds (recorded inside_lookback)
           (flat_window 30 100) 12 26 9 14 70 30 0.02 0.2
           (flat NaN (Close (flat_window 30 100)))
           (flat NaN (Close (flat_window 30 100)))
           (series_binop fsub (flat NaN (Close (flat_window 30 100)))
              (flat NaN (Close (flat_window 30 100))))
           (Val 100) NaN NaN NaN NaN);
    try (vm_compute; reflexivity).
  right. left. reflexivity.
Defined.

Lemma volatile_market_strategy_undefined_reading_holds_witness :
  volatile_market_strategy (recorded inside_lookback) (flat_window 30 100)
    14 20 2 14 70 30 1.5 = Ok {| action := "hold"; stop_loss := None |}.
Proof.
  apply (volatile_market_strategy_undefined_reading_holds (recorded inside_lookback)
           (flat_window 30 100) 14 20 2 14 70 30 1.5
           (flat NaN (Close (flat_window 30 100)))
           (flat NaN (Close (flat_window 30 100)))
           (flat NaN (Close (flat_window 30 100)))
           NaN (Val 100) NaN NaN NaN);
    try (vm_compute; reflexivity).
  left. reflexivity.
Defined.

Lemma sideways_market_strategy_undefined_readings_hold_witness :
  sideways_market_strategy (recorded inside_lookback) (flat_window 30 100)
    20 14 14 3 3 = Ok "hold".
Proof.
  apply (sideways_market_strategy_undefined_readings_hold (recorded inside_lookback)
           (flat_window 30 100) 20 14 14 3 3
           (flat NaN (Close (flat_window 30 100)))
           (flat NaN (Close (flat_window 30 100)))
           (flat NaN (Close (flat_window 30 100)))
           (flat NaN (Close (flat_window 30 100)))
           (flat NaN (Close (flat_window 30 100)))
           (Val 100) NaN NaN NaN);
    try (vm_compute; reflexivity).
  right. split; reflexivity.
Defined.

(** [oversold_breakdown]: close 100, ATR 2, stop-loss 97 under the close. *)
Lemma volatile_market_strategy_stop_loss_side_witness :
  (100 - 1.5 * 2 <= 100)%Q.
Proof.
  refine (proj2 (proj1 (proj1 (volatile_market_strategy_stop_loss_side
            (recorded oversold_breakdown) (flat_window 30 100) 14 20 2 14 70 30 1.5
            (flat (Val 109) (Close (flat_window 30 100)))
            (flat (Val 105) (Close (flat_window 30 100)))
            (flat (Val 101) (Close (flat_window 30 100)))
            (Val 25) (Val 109) (Val 101) (Val 2) 100
            {| action := "buy"; stop_loss := Some (Val (100 - 1.5 * 2)) |}
            _ _ _ _ _ _ _ _) 2 eq_refl _) eq_refl));
    try (vm_compute; reflexivity); vm_compute; discriminate.
Defined.

Lemma evaluators_return_buy_sell_or_hold_witness :
  action {| action := "buy"; stop_loss := Some (Val (100 - 1.5 * 2)) |} = "buy" \/
  action {| action := "buy"; stop_loss := Some (Val (100 - 1.5 * 2)) |} = "sell" \/
  action {| action := "buy"; stop_loss := Some (Val (100 - 1.5 * 2)) |} = "hold".
Proof.
  refine (proj1 (proj2 (proj2 (proj2 (proj2 (evaluators_return_buy_sell_or_hold
            (recorded oversold_breakdown) (flat_window 30 100)))))
            14%nat 20%nat 2 14%nat 70 30 1.5 _ _)).
  vm_compute. reflexivity.
Defined.

(** Three closes, a 200-bar window: the average is defined. *)
Lemma rolling_mean_min_periods_1_defined_witness :
  exists m, iloc_last (rolling_mean 200 (Some 1%nat) (Close rising_window)) = Ok (Val m).
Proof.
  apply (rolling_mean_min_periods_1_defined 200 (Close rising_window) 102);
    [lia | reflexivity].
Defined.

(** Three rising closes still vote ['sell']. *)
Lemma sma_signal_short_window_is_sell_witness :
  sma_signal rising_window 50 200 = Ok "sell".
Proof.
  apply (sma_signal_short_window_is_sell rising_window 50 200); cbn; lia.
Defined.


(** [volatile_uptrend] (ATR 2): the hybrid evaluator is the consensus one. *)
Lemma hybrid_refines_consensus_witness :
  hybrid_trend_following_strategy (recorded volatile_uptrend) (flat_window 30 100)
    50 200 12 26 9 14 25 14 1
  = consensus_trend_following_strategy (recorded volatile_uptrend) (flat_window 30 100)
      50 200 12 26 9 14 25.
Proof.
  apply (proj1 (hybrid_refines_consensus (recorded volatile_uptrend)
                  (flat_window 30 100) 50 200 12 26 9 14 14 25 1) (Val 2));
    vm_compute; reflexivity.
Defined.

(** Three bars inside every lookback: both trend evaluators sell. *)
Lemma trend_evaluators_inside_lookback_witness :
  consensus_trend_following_strategy (recorded inside_lookback) (flat_window 3 100)
    50 200 12 26 9 14 25 = Ok "sell" /\
  hybrid_trend_following_strategy (recorded inside_lookback) (flat_window 3 100)
    50 200 12 26 9 14 25 14 1 = Ok "sell".
Proof.
  destruct (trend_evaluators_inside_lookback (recorded inside_lookback)
              (flat_window 3 100) 50 200 12 26 9 14 14 25 1
              (flat NaN (Close (flat_window 3 100)))
              (flat NaN (Close (flat_window 3 100)))
              (series_binop fsub (flat NaN (Close (flat_window 3 100)))
                 (flat NaN (Close (flat_window 3 100))))
              "sell" NaN NaN NaN
              ltac:(vm_compute; reflexivity) eq_refl
              ltac:(vm_compute; reflexivity) ltac:(vm_compute; reflexivity)
              (or_introl eq_refl)
              ltac:(vm_compute; reflexivity) ltac:(vm_compute; reflexivity))
    as (Hc & Hh & _).
  split; [exact Hc | exact Hh].
Defined.

Lemma volatile_buy_is_sideways_buy_witness :
  sideways_market_strategy (recorded oversold_breakdown) (flat_window 30 100)
    20 14 14 3 3 = Ok "buy".
Proof.
  apply (volatile_buy_is_sideways_buy (recorded oversold_breakdown)
           (flat_window 30 100) 14 20 14 70 30 1.5 14 3 3
           {| action := "buy"; stop_loss := Some (Val (100 - 1.5 * 2)) |});
    vm_compute; reflexivity.
Defined.


Lemma calculate_trade_amount_unreadable_balance_witness :
  calculate_trade_amount recorded_builtins unreachable_client "USDT" 5
  = ([BalanceRequest "USDT"], Raised (OtherException "Connection refused")).
Proof.
  apply (proj1 (calculate_trade_amount_unreadable_balance recorded_builtins
                  unreachable_client "USDT" 5)).
  reflexivity.
Defined.

(** ['BUY'] on [paper_client]: one market buy; ['hold']: none. *)
Lemma execute_trade_contract_witness :
  orders (fst (execute_trade recorded_builtins paper_client "BTCUSDT" "BUY" (Val 50)))
  = [MarketBuy "BTCUSDT" (DecimalOf 50)] /\
  execute_trade recorded_builtins paper_client "BTCUSDT" "hold" (Val 50)
  = ([Print (ErrorLine (ValueError "Trade side must be 'buy' or 'sell'"))],
     Returned None).
Proof.
  split.
  - apply (proj2 (execute_trade_contract recorded_builtins paper_client
                    "BTCUSDT" "BUY" (Val 50)) (DecimalOf 50) eq_refl).
    reflexivity.
  - apply (proj2 (execute_trade_contract recorded_builtins paper_client
                    "BTCUSDT" "hold" (Val 50)) (DecimalOf 50) eq_refl);
      intros H; discriminate H.
Defined.

(** [volatile_breakdown]: the evaluator says buy with a stop-loss, the cycle
    holds. *)
Lemma trading_cycle_volatile_never_trades_witness :
  trading_cycle recorded_builtins (recorded volatile_breakdown) paper_client
    "BTCUSDT" 5 (flat_window 30 100)
  = ([Print (MarketConditionLine "BTCUSDT" "volatile"); Print HoldingLine],
     Returned tt).
Proof.
  apply (trading_cycle_volatile_never_trades recorded_builtins
           (recorded volatile_breakdown) paper_client "BTCUSDT" 5 (flat_window 30 100)
           {| action := "buy"; stop_loss := Some (Val (100 - 1.5 * 2)) |});
    vm_compute; reflexivity.
Defined.

Lemma trading_cycle_holds_witness :
  trading_cycle recorded_builtins (recorded quiet_uptrend) paper_client
    "BTCUSDT" 5 (flat_window 30 100)
  = ([Print (MarketConditionLine "BTCUSDT" "trending"); Print HoldingLine],
     Returned tt).
Proof.
  apply (trading_cycle_holds recorded_builtins (recorded quiet_uptrend) paper_client
           "BTCUSDT" 5 (flat_window 30 100) "trending" (PyStr "hold"));
    try (vm_compute; reflexivity); intros H; discriminate H.
Defined.

(** A cycle that does trade: [overbought] is a ['sideways'] regime whose
    evaluator sells; 5% of 1000 USDT are sold on [paper_client]. *)
Example trading_cycle_sells_on_paper :
  orders (fst (trading_cycle recorded_builtins (recorded overbought) paper_client
                 "BTCUSDT" 5 (flat_window 30 100)))
  = [MarketSell "BTCUSDT" (DecimalOf (1000 * 5 / 100))].
Proof. vm_compute. reflexivity. Qed.
